(** * Stochastic self-assembly of particles in a 2-D channel

    A shallow embedding of [metal_oxide.py]: the classes [Particle] and
    [SelfAssemblyModel], and the properties of the simulation core.

    Conventions of the embedding.
    - Python numbers (the floats and the integer literals mixed with them) are
      real numbers: rounding, overflow and NaN are outside the model.  The
      step counter [time] is a Python [int] and is an integer here.
      The one exception the model knows is the division by a zero divisor in
      [correction_factor]; the [OverflowError] of [**] and [math.exp] on
      values that leave the double range, and the underflow of [sigma**2] to
      zero, have no counterpart.  Properties are therefore stated for what
      the model shares with the code: outcomes (a call that returned, a call
      that raised), the control flow, and order facts that rounding keeps.
    - The process-wide generator of the [random] module is a tape of the
      values that successive calls of [random.random()] return, read through
      a cursor; a seed fixes the tape.
    - An exception leaves behind whatever the call had already mutated, so a
      call returns its outcome together with the object as it stands. *)

From Stdlib Require Import Reals Lra Lia ZArith List Bool.
Import ListNotations.

Open Scope R_scope.

(** ** The random source *)

Module Random.

Definition Tape : Type := nat -> R.

(** A computation that reads the tape from a cursor and moves the cursor. *)
Definition Rand (A : Type) : Type := Tape -> nat -> A * nat.

Definition ret {A : Type} (a : A) : Rand A := fun _ c => (a, c).

Definition bind {A B : Type} (m : Rand A) (k : A -> Rand B) : Rand B :=
  fun tp c => let (a, c') := m tp c in k a tp c'.

(** [random.random()]: the next value of the tape. *)
Definition random : Rand R := fun tp c => (tp c, S c).

(** [random.uniform(a, b)] is [a + (b - a) * random()]. *)
Definition uniform (a b : R) : Rand R :=
  bind random (fun r => ret (a + (b - a) * r)).

(** The contract of [random.random()]: every value lies in [[0, 1)]. *)
Definition unit_interval (tp : Tape) : Prop := forall n : nat, 0 <= tp n < 1.

(** Two tapes that agree on the cells [c .. c + k - 1]. *)
Definition agree (tp1 tp2 : Tape) (c k : nat) : Prop :=
  forall i : nat, (c <= i < c + k)%nat -> tp1 i = tp2 i.

End Random.

Import Random.

Notation "x <- m ;; k" := (bind m (fun x => k))
  (at level 61, m at next level, right associativity).
Notation "' pat <- m ;; k" := (bind m (fun x => match x with pat => k end))
  (at level 61, pat pattern, m at next level, right associativity).

(** ** Exceptions *)

Inductive PyError : Type := ZeroDivisionError.

Inductive Result (A : Type) : Type :=
| Returned (a : A)
| Raised (e : PyError).

Arguments Returned {A} a.
Arguments Raised {A} e.

(** The comparisons [a < b] and [a > b] as the conditions of an [if]. *)
Definition Rltb (a b : R) : bool := if Rlt_dec a b then true else false.
Definition Rgtb (a b : R) : bool := if Rgt_dec a b then true else false.

(** ** class Particle *)

Module Particle.

Inductive State : Type := unassembled | assembled.

Record particle : Type := mk {
  x : R;
  y : R;
  state : State;
  transformation_time : option Z;
  velocity : R * R
}.

Definition __init__ (x0 y0 : R) (velocity0 : R * R) : particle :=
  {| x := x0; y := y0; state := unassembled;
     transformation_time := None; velocity := velocity0 |}.

(** [P = 1 - math.exp(-k0 * f_x * t**2)] *)
Definition transformation_probability (k0 f_x : R) (t : Z) : R :=
  1 - exp (- k0 * f_x * IZR (t ^ 2)).

(** [self.state = "assembled"; self.transformation_time = t] *)
Definition assemble (self : particle) (t : Z) : particle :=
  {| x := x self; y := y self; state := assembled;
     transformation_time := Some t; velocity := velocity self |}.

(** [self.x += self.velocity[0]; self.y += self.velocity[1]] *)
Definition move (self : particle) : particle :=
  {| x := x self + fst (velocity self);
     y := y self + snd (velocity self);
     state := state self;
     transformation_time := transformation_time self;
     velocity := velocity self |}.

(** [if self.x < 0 or self.x > 10: ...] *)
Definition bounce_x (self : particle) : particle :=
  if Rltb (x self) 0 || Rgtb (x self) 10 then
    {| x := Rmax 0 (Rmin (x self) 10);
       y := y self;
       state := state self;
       transformation_time := transformation_time self;
       velocity := (- fst (velocity self), snd (velocity self)) |}
  else self.

(** [if self.y < 0 or self.y > 1: ...] *)
Definition bounce_y (self : particle) : particle :=
  if Rltb (y self) 0 || Rgtb (y self) 1 then
    {| x := x self;
       y := Rmax 0 (Rmin (y self) 1);
       state := state self;
       transformation_time := transformation_time self;
       velocity := (fst (velocity self), - snd (velocity self)) |}
  else self.

Definition update (self : particle) (t : Z) (k0 f_x : R) : Rand particle :=
  self <- match state self with
          | unassembled =>
              let P := transformation_probability k0 f_x t in
              r <- random ;;
              if Rltb r P then ret (assemble self t) else ret self
          | assembled => ret self
          end ;;
  match state self with
  | unassembled => ret (bounce_y (bounce_x (move self)))
  | assembled => ret self
  end.

End Particle.

(** ** class SelfAssemblyModel *)

Module SelfAssemblyModel.

Import Particle.

Record model : Type := mk {
  width : R;
  length : R;
  k0 : R;
  alpha : R;
  x_p : R;
  sigma : R;
  velocity_mag : R;
  particles : list particle;
  time : Z
}.

(** The list comprehension of [__init__]: [n] particles, four draws each. *)
Fixpoint make_particles (n : nat) (width0 length0 velocity_mag0 : R)
  : Rand (list particle) :=
  match n with
  | O => ret []
  | S n' =>
      px <- uniform 0 length0 ;;
      py <- uniform 0 width0 ;;
      vx <- uniform (- velocity_mag0) velocity_mag0 ;;
      vy <- uniform (- velocity_mag0) velocity_mag0 ;;
      rest <- make_particles n' width0 length0 velocity_mag0 ;;
      ret (Particle.__init__ px py (vx, vy) :: rest)
  end.

(** [range(N)] is empty for a negative [N]. *)
Definition __init__ (N : Z) (width0 length0 k00 alpha0 x_p0 sigma0 velocity_mag0 : R)
  : Rand model :=
  ps <- make_particles (Z.to_nat N) width0 length0 velocity_mag0 ;;
  ret {| width := width0; length := length0; k0 := k00; alpha := alpha0;
         x_p := x_p0; sigma := sigma0; velocity_mag := velocity_mag0;
         particles := ps; time := 0 |}.

(** The division raises when its divisor [2 * sigma**2] is zero. *)
Definition correction_factor (self : model) (x0 : R) : Result R :=
  if Req_dec_T (2 * sigma self ^ 2) 0 then Raised ZeroDivisionError
  else Returned (1 + alpha self * exp (- ((x0 - x_p self) ^ 2) / (2 * sigma self ^ 2))).

(** The loop of [step] over the particles: an exception ends it and leaves
    the remaining particles as they were. *)
Fixpoint update_all (self : model) (ps : list particle)
  : Rand (Result unit * list particle) :=
  match ps with
  | [] => ret (Returned tt, [])
  | p :: rest =>
      match correction_factor self (x p) with
      | Raised e => ret (Raised e, p :: rest)
      | Returned f_x =>
          p' <- update p (time self) (k0 self) f_x ;;
          ' (res, rest') <- update_all self rest ;;
          ret (res, p' :: rest')
      end
  end.

Definition tick (self : model) : model :=
  {| width := width self; length := length self; k0 := k0 self;
     alpha := alpha self; x_p := x_p self; sigma := sigma self;
     velocity_mag := velocity_mag self;
     particles := particles self; time := (time self + 1)%Z |}.

Definition with_particles (self : model) (ps : list particle) : model :=
  {| width := width self; length := length self; k0 := k0 self;
     alpha := alpha self; x_p := x_p self; sigma := sigma self;
     velocity_mag := velocity_mag self;
     particles := ps; time := time self |}.

Definition step (self : model) : Rand (Result unit * model) :=
  let self := tick self in
  ' (res, ps) <- update_all self (particles self) ;;
  ret (res, with_particles self ps).

(** [n] successive calls of [step()], whatever each call's outcome. *)
Fixpoint steps (n : nat) (self : model) : Rand model :=
  match n with
  | O => ret self
  | S n' => ' (_, self') <- step self ;; steps n' self'
  end.

(** The snapshots a driver sees: the model after each of [n] calls. *)
Fixpoint trajectory (n : nat) (self : model) : Rand (list model) :=
  match n with
  | O => ret []
  | S n' =>
      ' (_, self') <- step self ;;
      rest <- trajectory n' self' ;;
      ret (self' :: rest)
  end.

End SelfAssemblyModel.

(** ** The driver and the predicates of the specification *)

Import Particle SelfAssemblyModel.

(** Construct the model, then call [step()] [n] times. *)
Definition simulate (N : Z) (w l k a xp s vm : R) (n : nat) : Rand model :=
  m <- SelfAssemblyModel.__init__ N w l k a xp s vm ;; steps n m.

(** The same run, recording the model after construction and after each call. *)
Definition simulate_trajectory (N : Z) (w l k a xp s vm : R) (n : nat)
  : Rand (list model) :=
  m <- SelfAssemblyModel.__init__ N w l k a xp s vm ;;
  rest <- trajectory n m ;;
  ret (m :: rest).

(** The parameters of the model are never written after construction. *)
Definition same_parameters (m m' : model) : Prop :=
  width m' = width m /\ length m' = length m /\ k0 m' = k0 m /\
  alpha m' = alpha m /\ x_p m' = x_p m /\ sigma m' = sigma m /\
  velocity_mag m' = velocity_mag m.

(** [transformation_time] is set exactly when the particle is assembled. *)
Definition consistent (p : particle) : Prop :=
  transformation_time p <> None <-> state p = assembled.

(** An assembled particle is left exactly as it is. *)
Definition frozen (p q : particle) : Prop := state p = assembled -> q = p.

(** A particle never leaves the unassembled state. *)
Definition stays_unassembled (p q : particle) : Prop :=
  state p = unassembled -> state q = unassembled.

(** A step does not break the link between state and transformation time. *)
Definition keeps_consistent (p q : particle) : Prop :=
  consistent p -> consistent q.

(** The channel of a model, and the rectangle [update] clamps to. *)
Definition in_channel (m : model) (p : particle) : Prop :=
  0 <= x p <= length m /\ 0 <= y p <= width m.

Definition in_fixed_box (p : particle) : Prop :=
  0 <= x p <= 10 /\ 0 <= y p <= 1.

(** ** visualize_simulation: the callback of the animation *)

(** [p.state == s] *)
Definition state_eqb (a b : State) : bool :=
  match a, b with
  | unassembled, unassembled => true
  | assembled, assembled => true
  | _, _ => false
  end.

Definition in_state (s : State) (p : particle) : bool := state_eqb (state p) s.

(** The number of particles in a state. *)
Definition count_state (s : State) (ps : list particle) : nat :=
  List.length (filter (in_state s) ps).

Module visualize_simulation.

(** [[p.x for p in model.particles if p.state == s]] and the same for [p.y]. *)
Definition xs_of (s : State) (ps : list particle) : list R :=
  map x (filter (in_state s) ps).

Definition ys_of (s : State) (ps : list particle) : list R :=
  map y (filter (in_state s) ps).

(** [np.column_stack((xs, ys))]: row [i] holds [xs[i]] and [ys[i]]; NumPy
    raises [ValueError] when the two columns differ in length. *)
Definition column_stack (xs ys : list R) : option (list (R * R)) :=
  if (List.length xs =? List.length ys)%nat then Some (combine xs ys) else None.

(** What one call of the callback hands to the two scatter plots. *)
Record offsets : Type := mk_offsets {
  unassembled_scatter : list (R * R);
  assembled_scatter : list (R * R)
}.

Inductive outcome : Type :=
| Drawn (o : offsets)
| StepRaised (e : PyError)
| ValueError.

(** [update(frame)]: the frame number is not used. *)
Definition update (m : model) : Rand (outcome * model) :=
  ' (res, m) <- step m ;;
  match res with
  | Raised e => ret (StepRaised e, m)
  | Returned _ =>
      let unassembled_x := xs_of unassembled (particles m) in
      let unassembled_y := ys_of unassembled (particles m) in
      let assembled_x := xs_of assembled (particles m) in
      let assembled_y := ys_of assembled (particles m) in
      match column_stack unassembled_x unassembled_y with
      | None => ret (ValueError, m)
      | Some u =>
          match column_stack assembled_x assembled_y with
          | None => ret (ValueError, m)
          | Some a =>
              ret (Drawn {| unassembled_scatter := u; assembled_scatter := a |}, m)
          end
      end
  end.

End visualize_simulation.

(** ** Further predicates on particles and models *)

(** The position of a particle as the plot shows it. *)
Definition position (p : particle) : R * R := (x p, y p).

(** Both velocity components keep their magnitude. *)
Definition same_speed (p q : particle) : Prop :=
  Rabs (fst (velocity q)) = Rabs (fst (velocity p)) /\
  Rabs (snd (velocity q)) = Rabs (snd (velocity p)).

(** A rectangle [[0,l] x [0,w]] is not left. *)
Definition stays_in (l w : R) (p q : particle) : Prop :=
  (0 <= x p <= l /\ 0 <= y p <= w) -> (0 <= x q <= l /\ 0 <= y q <= w).

(** What the call of [step()] that sets the clock to [T] may do to a
    particle: leave an assembled one alone, and either keep an unassembled
    one unassembled without touching its transformation time or assemble it
    with transformation time [T]. *)
Definition advanced (T : Z) (p q : particle) : Prop :=
  (state p = assembled -> q = p) /\
  (state p = unassembled ->
   (state q = unassembled /\ transformation_time q = transformation_time p) \/
   (state q = assembled /\ transformation_time q = Some T)).

(** The state as the constructor leaves a particle. *)
Definition fresh (p : particle) : Prop :=
  state p = unassembled /\ transformation_time p = None.

(** ** Concrete scenarios *)

(** A generator whose every value is one half. *)
Definition tape_half : Tape := fun _ => 0.5.

(** A generator whose every value is zero. *)
Definition tape_zero : Tape := fun _ => 0.

(** The draws that place a particle at [x = 0.996 * length] with
    [vx = 0.8 * velocity_mag]; every later draw is one half. *)
Definition tape_edge : Tape :=
  fun n => match n with
           | 0%nat => 0.996
           | 2%nat => 0.9
           | _ => 0.5
           end.

(** A generator that delivers one half eight times and zero ever after. *)
Definition tape_half_then_zero : Tape :=
  fun n => if (n <? 8)%nat then 0.5 else 0.

(** The parameters of the script with one particle, in a channel of length 5,
    as constructed from [tape_edge]. *)
Definition m_short : model :=
  fst (SelfAssemblyModel.__init__ 1 1 5 0.1 0 3 1 0.05 tape_edge 0%nat).

(** The parameters of the script with one particle and [sigma = 0]. *)
Definition m_flat : model :=
  fst (SelfAssemblyModel.__init__ 1 1 10 0.1 0 3 0 0.05 tape_half 0%nat).

(** The parameters of the script with one particle and a negative length and
    width. *)
Definition m_negative : model :=
  fst (SelfAssemblyModel.__init__ 1 (-1) (-10) 0.1 0 3 1 0.05 tape_half 0%nat).

(** The particle that [__init__] builds from [tape_zero] with the parameters
    of the script. *)
Definition p_corner : particle :=
  Particle.__init__ (0 + (10 - 0) * 0) (0 + (1 - 0) * 0)
    (- (0.05) + (0.05 - - (0.05)) * 0, - (0.05) + (0.05 - - (0.05)) * 0).

(** The particle of the boundary-reflection scenario. *)
Definition p_edge : particle :=
  {| x := 9.98; y := 0.5; state := unassembled;
     transformation_time := None; velocity := (0.05, 0) |}.

(** A particle that transformed at step 1. *)
Definition p_done : particle :=
  {| x := 3; y := 0.5; state := assembled;
     transformation_time := Some 1%Z; velocity := (0.05, 0) |}.

(** The parameters of the script with one particle that is already
    assembled. *)
Definition m_done : model :=
  {| width := 1; length := 10; k0 := 0.1; alpha := 0; x_p := 3; sigma := 1;
     velocity_mag := 0.05; particles := [p_done]; time := 1 |}.

(** * Properties *)

(** ** Comparisons *)

Lemma Rltb_true (a b : R) : Rltb a b = true <-> a < b.
Proof. unfold Rltb. destruct (Rlt_dec a b); split; intros; congruence || assumption. Qed.

Lemma Rltb_false (a b : R) : Rltb a b = false <-> ~ a < b.
Proof. unfold Rltb. destruct (Rlt_dec a b); split; intros; congruence || tauto. Qed.

Lemma Rgtb_true (a b : R) : Rgtb a b = true <-> a > b.
Proof. unfold Rgtb. destruct (Rgt_dec a b); split; intros; congruence || assumption. Qed.

Lemma Rgtb_false (a b : R) : Rgtb a b = false <-> ~ a > b.
Proof. unfold Rgtb. destruct (Rgt_dec a b); split; intros; congruence || tauto. Qed.

(** [max(0, min(v, hi))] lies between the two bounds. *)
Lemma clamp_range (v hi : R) : 0 <= hi -> 0 <= Rmax 0 (Rmin v hi) <= hi.
Proof.
  intros Hhi. unfold Rmax, Rmin.
  destruct (Rle_dec v hi); destruct (Rle_dec 0 _); lra.
Qed.

(** ** Motion and reflection *)

Section Bounce.

Variable p : particle.

Lemma bounce_x_state : state (bounce_x p) = state p.
Proof. unfold bounce_x. destruct (_ || _); reflexivity. Qed.

Lemma bounce_y_state : state (bounce_y p) = state p.
Proof. unfold bounce_y. destruct (_ || _); reflexivity. Qed.

Lemma bounce_x_time : transformation_time (bounce_x p) = transformation_time p.
Proof. unfold bounce_x. destruct (_ || _); reflexivity. Qed.

Lemma bounce_y_time : transformation_time (bounce_y p) = transformation_time p.
Proof. unfold bounce_y. destruct (_ || _); reflexivity. Qed.

Lemma bounce_x_range : 0 <= x (bounce_x p) <= 10.
Proof.
  unfold bounce_x.
  destruct (Rltb (x p) 0) eqn:Hlo; [|destruct (Rgtb (x p) 10) eqn:Hhi]; simpl.
  - apply clamp_range; lra.
  - apply clamp_range; lra.
  - apply Rltb_false in Hlo. apply Rgtb_false in Hhi. lra.
Qed.

Lemma bounce_y_range : 0 <= y (bounce_y p) <= 1.
Proof.
  unfold bounce_y.
  destruct (Rltb (y p) 0) eqn:Hlo; [|destruct (Rgtb (y p) 1) eqn:Hhi]; simpl.
  - apply clamp_range; lra.
  - apply clamp_range; lra.
  - apply Rltb_false in Hlo. apply Rgtb_false in Hhi. lra.
Qed.

Lemma bounce_y_x : x (bounce_y p) = x p.
Proof. unfold bounce_y. destruct (_ || _); reflexivity. Qed.

Lemma bounce_y_vx : fst (velocity (bounce_y p)) = fst (velocity p).
Proof. unfold bounce_y. destruct (_ || _); reflexivity. Qed.

End Bounce.

(** ** One call of [update] *)

Lemma update_assembled (p : particle) (t : Z) (k f : R) (tp : Tape) (c : nat) :
  state p = assembled -> update p t k f tp c = (p, c).
Proof.
  intros Hs. unfold update, bind, ret. rewrite Hs. rewrite Hs. reflexivity.
Qed.

Lemma update_unassembled (p : particle) (t : Z) (k f : R) (tp : Tape) (c : nat) :
  state p = unassembled ->
  update p t k f tp c =
  (if Rltb (tp c) (transformation_probability k f t)
   then assemble p t else bounce_y (bounce_x (move p)), S c).
Proof.
  intros Hs. unfold update, bind, ret, random. rewrite Hs.
  destruct (Rltb _ _); simpl; [reflexivity | rewrite Hs; reflexivity].
Qed.

(** The state after [update]: a particle that is still unassembled has moved. *)
Lemma update_moved (p : particle) (t : Z) (k f : R) (tp : Tape) (c : nat) :
  state p = unassembled ->
  state (fst (update p t k f tp c)) = unassembled ->
  fst (update p t k f tp c) = bounce_y (bounce_x (move p)).
Proof.
  intros Hs. rewrite (update_unassembled _ _ _ _ _ _ Hs).
  destruct (Rltb _ _); simpl; [discriminate | reflexivity].
Qed.

(** ** One call of [step] *)

Lemma Forall2_nth_error {A B : Type} (Rel : A -> B -> Prop) (l1 : list A) (l2 : list B) :
  Forall2 Rel l1 l2 ->
  forall (i : nat) (a : A), nth_error l1 i = Some a ->
  exists b : B, nth_error l2 i = Some b /\ Rel a b.
Proof.
  induction 1 as [|a0 b0 l1 l2 Hab _ IH]; intros [|i] a Hi; simpl in *; try discriminate.
  - injection Hi as <-. exists b0. split; [reflexivity | assumption].
  - apply IH. assumption.
Qed.

Lemma Forall2_Forall {A : Type} (Rel : A -> A -> Prop) (Q : A -> Prop) (l1 l2 : list A) :
  (forall a b, Rel a b -> Q b) -> Forall2 Rel l1 l2 -> Forall Q l2.
Proof.
  intros HQ. induction 1; constructor; eauto.
Qed.

Lemma step_unfold (m : model) (tp : Tape) (c : nat) :
  step m tp c =
  (fst (fst (update_all (tick m) (particles m) tp c)),
   with_particles (tick m) (snd (fst (update_all (tick m) (particles m) tp c))),
   snd (update_all (tick m) (particles m) tp c)).
Proof.
  unfold step, bind, ret. simpl.
  destruct (update_all (tick m) (particles m) tp c) as [[res ps] c']. reflexivity.
Qed.

Lemma steps_S (n : nat) (m : model) (tp : Tape) (c : nat) :
  steps (S n) m tp c = steps n (snd (fst (step m tp c))) tp (snd (step m tp c)).
Proof.
  simpl. unfold bind. destruct (step m tp c) as [[res m'] c']. reflexivity.
Qed.

Lemma step_parameters (m : model) (tp : Tape) (c : nat) :
  same_parameters m (snd (fst (step m tp c))).
Proof. rewrite step_unfold. repeat split. Qed.

Lemma steps_parameters (n : nat) (tp : Tape) :
  forall (m : model) (c : nat), same_parameters m (fst (steps n m tp c)).
Proof.
  induction n as [|n IH]; intros m c.
  - repeat split.
  - rewrite steps_S.
    pose proof (step_parameters m tp c) as H1.
    pose proof (IH (snd (fst (step m tp c))) (snd (step m tp c))) as H2.
    unfold same_parameters in *. intuition congruence.
Qed.

(** A relation between a particle before and after [update] lifts to the
    particle lists before and after [step], and after any number of calls. *)
Section Pointwise.

Variable Rel : particle -> particle -> Prop.
Variable tp : Tape.
Variable k : R.

Hypothesis Rel_update :
  forall (p : particle) (t : Z) (f : R) (c : nat), Rel p (fst (update p t k f tp c)).

Lemma update_all_returned (m : model) :
  k0 m = k ->
  forall (ps : list particle) (c : nat),
  fst (fst (update_all m ps tp c)) = Returned tt ->
  Forall2 Rel ps (snd (fst (update_all m ps tp c))).
Proof.
  intros Hk. induction ps as [|p ps IH]; intros c; simpl.
  - constructor.
  - destruct (correction_factor m (x p)) as [f|e]; [|discriminate].
    unfold bind, ret.
    pose proof (Rel_update p (time m) f c) as Hp. rewrite Hk.
    destruct (update p (time m) k f tp c) as [p' c'].
    specialize (IH c').
    destruct (update_all m ps tp c') as [[res rest] c'']. simpl in *.
    intros Hres. constructor; auto.
Qed.

Hypothesis Rel_refl : forall p : particle, Rel p p.

Lemma Forall2_refl (ps : list particle) : Forall2 Rel ps ps.
Proof. induction ps; constructor; auto. Qed.

Lemma update_all_rel (m : model) :
  k0 m = k ->
  forall (ps : list particle) (c : nat),
  Forall2 Rel ps (snd (fst (update_all m ps tp c))).
Proof.
  intros Hk. induction ps as [|p ps IH]; intros c; simpl.
  - constructor.
  - destruct (correction_factor m (x p)) as [f|e]; [|apply Forall2_refl].
    unfold bind, ret.
    pose proof (Rel_update p (time m) f c) as Hp. rewrite Hk.
    destruct (update p (time m) k f tp c) as [p' c'].
    specialize (IH c').
    destruct (update_all m ps tp c') as [[res rest] c'']. simpl in *.
    constructor; auto.
Qed.

Lemma step_rel (m : model) (c : nat) :
  k0 m = k -> Forall2 Rel (particles m) (particles (snd (fst (step m tp c)))).
Proof.
  intros Hk. rewrite step_unfold. simpl. apply update_all_rel. assumption.
Qed.

Hypothesis Rel_trans : forall p q r : particle, Rel p q -> Rel q r -> Rel p r.

Lemma Forall2_trans (l1 l2 : list particle) :
  Forall2 Rel l1 l2 -> forall l3, Forall2 Rel l2 l3 -> Forall2 Rel l1 l3.
Proof.
  induction 1; intros l3 H3; inversion H3; subst; constructor; eauto.
Qed.

Lemma steps_rel (n : nat) :
  forall (m : model) (c : nat),
  k0 m = k -> Forall2 Rel (particles m) (particles (fst (steps n m tp c))).
Proof.
  induction n as [|n IH]; intros m c Hk.
  - apply Forall2_refl.
  - rewrite steps_S.
    apply Forall2_trans with (particles (snd (fst (step m tp c)))).
    + apply step_rel. assumption.
    + apply IH. destruct (step_parameters m tp c) as (_ & _ & H & _). congruence.
Qed.

End Pointwise.

(** ** The transformation probability *)

Lemma exp_le_mono (a b : R) : a <= b -> exp a <= exp b.
Proof.
  intros [Hlt | ->]; [left; apply exp_increasing; assumption | right; reflexivity].
Qed.

Lemma IZR_square (t : Z) : IZR (t ^ 2) = IZR t * IZR t.
Proof. rewrite Z.pow_2_r. apply mult_IZR. Qed.

Lemma probability_zero (k f : R) (t : Z) :
  k * f = 0 -> transformation_probability k f t = 0.
Proof.
  intros H. unfold transformation_probability.
  replace (- k * f * IZR (t ^ 2)) with (- (k * f) * IZR (t ^ 2)) by ring.
  rewrite H. replace (- 0 * IZR (t ^ 2)) with 0 by ring. rewrite exp_0. ring.
Qed.

(** C3: an unassembled particle transforms exactly when its draw is below
    [1 - exp(-k0 * f_x * t * t)], and for positive [k0] and [f_x] this
    probability does not decrease from a positive step [t1] to a later
    step [t2]. *)
Theorem C3_probability_nondecreasing :
  (forall (p : particle) (t : Z) (k f : R) (tp : Tape) (c : nat),
      state p = unassembled ->
      (state (fst (update p t k f tp c)) = assembled <->
       tp c < 1 - exp (- (k * f * (IZR t * IZR t))))) /\
  (forall (k f : R) (t1 t2 : Z),
      0 < k -> 0 < f -> (0 < t1)%Z -> (t1 <= t2)%Z ->
      transformation_probability k f t1 <= transformation_probability k f t2).
Proof.
  split.
  - intros p t k f tp c Hs. rewrite (update_unassembled _ _ _ _ _ _ Hs). simpl.
    replace (- (k * f * (IZR t * IZR t))) with (- k * f * IZR (t ^ 2))
      by (rewrite IZR_square; ring).
    fold (transformation_probability k f t).
    destruct (Rltb (tp c) (transformation_probability k f t)) eqn:E.
    + apply Rltb_true in E. simpl. tauto.
    + apply Rltb_false in E. rewrite bounce_y_state, bounce_x_state. simpl.
      rewrite Hs. split; [discriminate | tauto].
  - intros k f t1 t2 Hk Hf H1 H12. unfold transformation_probability.
    assert (Hsq : IZR (t1 ^ 2) <= IZR (t2 ^ 2)).
    { apply IZR_le. apply Z.pow_le_mono_l. lia. }
    assert (Hkf : 0 < k * f) by (apply Rmult_lt_0_compat; assumption).
    assert (Hexp : exp (- k * f * IZR (t2 ^ 2)) <= exp (- k * f * IZR (t1 ^ 2))).
    { apply exp_le_mono. nra. }
    lra.
Qed.

Lemma C3_witness :
  (state (fst (update p_edge 1 0.1 1 tape_half 0%nat)) = assembled <->
   tape_half 0%nat < 1 - exp (- (0.1 * 1 * (IZR 1 * IZR 1)))) /\
  transformation_probability 0.1 1 1 <= transformation_probability 0.1 1 5.
Proof.
  split.
  - apply (proj1 C3_probability_nondecreasing). reflexivity.
  - apply (proj2 C3_probability_nondecreasing); [lra | lra | lia | lia].
Defined.

(** ** The correction factor *)

Lemma correction_factor_returned (m : model) (x0 : R) :
  sigma m <> 0 ->
  correction_factor m x0 =
  Returned (1 + alpha m * exp (- ((x0 - x_p m) ^ 2) / (2 * sigma m ^ 2))).
Proof.
  intros Hs. unfold correction_factor.
  destruct (Req_dec_T (2 * sigma m ^ 2) 0) as [E|_]; [|reflexivity].
  exfalso. apply Hs. nra.
Qed.

Lemma correction_factor_raised (m : model) (x0 : R) :
  sigma m = 0 -> correction_factor m x0 = Raised ZeroDivisionError.
Proof.
  intros Hs. unfold correction_factor.
  destruct (Req_dec_T (2 * sigma m ^ 2) 0) as [_|E]; [reflexivity|].
  exfalso. apply E. rewrite Hs. ring.
Qed.

(** ** Reflection at the fixed bounds *)

Lemma bounce_x_inside (p : particle) : 0 <= x p <= 10 -> bounce_x p = p.
Proof.
  intros H. unfold bounce_x.
  replace (Rltb (x p) 0) with false by (symmetry; apply Rltb_false; lra).
  replace (Rgtb (x p) 10) with false by (symmetry; apply Rgtb_false; lra).
  reflexivity.
Qed.

Lemma bounce_y_inside (p : particle) : 0 <= y p <= 1 -> bounce_y p = p.
Proof.
  intros H. unfold bounce_y.
  replace (Rltb (y p) 0) with false by (symmetry; apply Rltb_false; lra).
  replace (Rgtb (y p) 1) with false by (symmetry; apply Rgtb_false; lra).
  reflexivity.
Qed.

Lemma bounce_x_above (p : particle) :
  x p > 10 ->
  x (bounce_x p) = 10 /\ fst (velocity (bounce_x p)) = - fst (velocity p).
Proof.
  intros H. unfold bounce_x.
  replace (Rgtb (x p) 10) with true by (symmetry; apply Rgtb_true; lra).
  rewrite orb_true_r. simpl. split; [|reflexivity].
  unfold Rmax, Rmin. destruct (Rle_dec (x p) 10); destruct (Rle_dec 0 _); lra.
Qed.

(** The probability is at most its exponent, and positive when the exponent is. *)
Lemma probability_le (k f : R) (t : Z) :
  transformation_probability k f t <= k * f * IZR (t ^ 2).
Proof.
  unfold transformation_probability.
  pose proof (exp_ineq1_le (- k * f * IZR (t ^ 2))). lra.
Qed.

Lemma probability_pos (k f : R) (t : Z) :
  0 < k * f -> t <> 0%Z -> 0 < transformation_probability k f t.
Proof.
  intros Hkf Ht. unfold transformation_probability.
  assert (Hsq : 0 < IZR (t ^ 2)).
  { apply IZR_lt. rewrite Z.pow_2_r. nia. }
  assert (Hexp : exp (- k * f * IZR (t ^ 2)) < exp 0).
  { apply exp_increasing. nra. }
  rewrite exp_0 in Hexp. lra.
Qed.

Lemma frozen_update (k : R) (tp : Tape) (p : particle) (t : Z) (f : R) (c : nat) :
  frozen p (fst (update p t k f tp c)).
Proof. intros Hs. rewrite update_assembled by assumption. reflexivity. Qed.

Lemma frozen_refl (p : particle) : frozen p p.
Proof. intros _. reflexivity. Qed.

Lemma frozen_trans (p q r : particle) : frozen p q -> frozen q r -> frozen p r.
Proof.
  unfold frozen. intros Hpq Hqr Hs. specialize (Hpq Hs). subst q. auto.
Qed.

Lemma steps_frozen (n : nat) (m : model) (tp : Tape) (c : nat) :
  Forall2 frozen (particles m) (particles (fst (steps n m tp c))).
Proof.
  apply steps_rel with (k := k0 m).
  - apply frozen_update.
  - apply frozen_refl.
  - apply frozen_trans.
  - reflexivity.
Qed.

(** C5: [update] on an assembled particle returns it unchanged and draws
    nothing; hence a particle that is assembled stays exactly as it is, position
    included, through any number of later calls of [step()]. *)
Theorem C5_assembled_is_frozen :
  (forall (p : particle) (t : Z) (k f : R) (tp : Tape) (c : nat),
      state p = assembled -> update p t k f tp c = (p, c)) /\
  (forall (m : model) (tp : Tape) (c n i : nat) (p : particle),
      nth_error (particles m) i = Some p -> state p = assembled ->
      nth_error (particles (fst (steps n m tp c))) i = Some p).
Proof.
  split.
  - intros. apply update_assembled. assumption.
  - intros m tp c n i p Hi Hs.
    destruct (Forall2_nth_error _ _ _ (steps_frozen n m tp c) i p Hi)
      as (q & Hq & Hrel).
    rewrite Hq. f_equal. apply Hrel. assumption.
Qed.

Lemma C5_witness :
  update p_done 2 0.1 1 tape_half 0%nat = (p_done, 0%nat) /\
  nth_error (particles (fst (steps 3%nat m_done tape_half 0%nat))) 0%nat = Some p_done.
Proof.
  split.
  - apply (proj1 C5_assembled_is_frozen). reflexivity.
  - apply (proj2 C5_assembled_is_frozen); reflexivity.
Defined.

(** C8: an unassembled particle at [x = 9.98] with [vx = 0.05] whose draw does
    not transform it ends the update at [x = 10] with [vx = -0.05]. *)
Theorem C8_reflection_at_ten :
  forall (p : particle) (t : Z) (k f : R) (tp : Tape) (c : nat),
    state p = unassembled -> x p = 9.98 -> fst (velocity p) = 0.05 ->
    ~ tp c < transformation_probability k f t ->
    x (fst (update p t k f tp c)) = 10 /\
    fst (velocity (fst (update p t k f tp c))) = - 0.05.
Proof.
  intros p t k f tp c Hs Hx Hv Hr.
  rewrite (update_unassembled _ _ _ _ _ _ Hs).
  apply Rltb_false in Hr. rewrite Hr. simpl.
  rewrite bounce_y_x, bounce_y_vx.
  destruct (bounce_x_above (move p)) as [H1 H2].
  - simpl. rewrite Hx, Hv. lra.
  - rewrite H1, H2. simpl. rewrite Hv. split; lra.
Qed.

Lemma C8_witness :
  x (fst (update p_edge 1 0.1 1 tape_half 0%nat)) = 10 /\
  fst (velocity (fst (update p_edge 1 0.1 1 tape_half 0%nat))) = - 0.05.
Proof.
  apply C8_reflection_at_ten; try reflexivity.
  pose proof (probability_le 0.1 1 1) as H. simpl in H.
  unfold tape_half. lra.
Defined.

(** ** When [step] returns and when it raises *)

Lemma update_all_returns (m : model) (tp : Tape) :
  sigma m <> 0 ->
  forall (ps : list particle) (c : nat),
  fst (fst (update_all m ps tp c)) = Returned tt.
Proof.
  intros Hs. induction ps as [|p ps IH]; intros c; simpl.
  - reflexivity.
  - rewrite (correction_factor_returned _ _ Hs). unfold bind, ret.
    destruct (update p (time m) (k0 m) _ tp c) as [p' c'].
    specialize (IH c').
    destruct (update_all m ps tp c') as [[res rest] c'']. assumption.
Qed.

Lemma step_returns (m : model) (tp : Tape) (c : nat) :
  sigma m <> 0 -> fst (fst (step m tp c)) = Returned tt.
Proof.
  intros Hs. rewrite step_unfold. simpl. apply update_all_returns. assumption.
Qed.

(** With [sigma = 0] and at least one particle, [step] has advanced [time]
    and nothing else when the exception leaves it. *)
Lemma step_raises (m : model) (tp : Tape) (c : nat) :
  sigma m = 0 -> particles m <> [] ->
  step m tp c = (Raised ZeroDivisionError, tick m, c).
Proof.
  intros Hs Hp. rewrite step_unfold.
  destruct (particles m) as [|p ps] eqn:E; [congruence|]. simpl.
  rewrite (correction_factor_raised (tick m) (x p) Hs). simpl.
  unfold with_particles, tick. simpl. rewrite E. reflexivity.
Qed.

(** The step of a model that holds one unassembled particle. *)
Lemma step_one (m : model) (p : particle) (tp : Tape) (c : nat) :
  particles m = [p] -> sigma m <> 0 -> state p = unassembled ->
  step m tp c =
  (Returned tt,
   with_particles (tick m)
     [if Rltb (tp c)
           (transformation_probability (k0 m)
              (1 + alpha m * exp (- ((x p - x_p m) ^ 2) / (2 * sigma m ^ 2)))
              (time m + 1))
      then assemble p (time m + 1)
      else bounce_y (bounce_x (move p))],
   S c).
Proof.
  intros Hp Hs Hst. rewrite step_unfold. rewrite Hp. simpl.
  rewrite (correction_factor_returned (tick m) (x p) Hs). simpl.
  unfold bind. rewrite (update_unassembled _ _ _ _ _ _ Hst). reflexivity.
Qed.

(** ** Construction *)

Lemma init_unfold (N : Z) (w l k a xp s vm : R) (tp : Tape) (c : nat) :
  SelfAssemblyModel.__init__ N w l k a xp s vm tp c =
  ({| width := w; length := l; k0 := k; alpha := a; x_p := xp; sigma := s;
      velocity_mag := vm;
      particles := fst (make_particles (Z.to_nat N) w l vm tp c);
      time := 0 |},
   snd (make_particles (Z.to_nat N) w l vm tp c)).
Proof.
  unfold SelfAssemblyModel.__init__, bind, ret.
  destruct (make_particles (Z.to_nat N) w l vm tp c). reflexivity.
Qed.

Lemma make_particles_S (n : nat) (w l vm : R) (tp : Tape) (c : nat) :
  make_particles (S n) w l vm tp c =
  (Particle.__init__ (0 + (l - 0) * tp c) (0 + (w - 0) * tp (S c))
     (- vm + (vm - - vm) * tp (S (S c)), - vm + (vm - - vm) * tp (S (S (S c))))
   :: fst (make_particles n w l vm tp (S (S (S (S c))))),
   snd (make_particles n w l vm tp (S (S (S (S c)))))).
Proof.
  simpl. unfold bind, uniform, random, ret. unfold bind.
  destruct (make_particles n w l vm tp (S (S (S (S c))))). reflexivity.
Qed.

Lemma make_particles_fresh (n : nat) (w l vm : R) (tp : Tape) :
  forall c : nat,
  Forall (fun p => state p = unassembled /\ transformation_time p = None)
         (fst (make_particles n w l vm tp c)).
Proof.
  induction n as [|n IH]; intros c.
  - constructor.
  - rewrite make_particles_S. simpl. constructor; [split; reflexivity | apply IH].
Qed.

Lemma make_particles_length (n : nat) (w l vm : R) (tp : Tape) :
  forall c : nat,
  List.length (fst (make_particles n w l vm tp c)) = n /\
  snd (make_particles n w l vm tp c) = (4 * n + c)%nat.
Proof.
  induction n as [|n IH]; intros c.
  - split; reflexivity.
  - rewrite make_particles_S. simpl fst. simpl snd.
    destruct (IH (S (S (S (S c))))) as [H1 H2]. split.
    + cbn [List.length]. rewrite H1. reflexivity.
    + rewrite H2. lia.
Qed.

Lemma init_particles (N : Z) (w l k a xp s vm : R) (tp : Tape) (c : nat) :
  particles (fst (SelfAssemblyModel.__init__ N w l k a xp s vm tp c)) =
  fst (make_particles (Z.to_nat N) w l vm tp c).
Proof. rewrite init_unfold. reflexivity. Qed.

Lemma simulate_unfold (N : Z) (w l k a xp s vm : R) (n : nat) (tp : Tape) (c : nat) :
  simulate N w l k a xp s vm n tp c =
  steps n (fst (SelfAssemblyModel.__init__ N w l k a xp s vm tp c)) tp
          (snd (SelfAssemblyModel.__init__ N w l k a xp s vm tp c)).
Proof.
  unfold simulate, bind.
  destruct (SelfAssemblyModel.__init__ N w l k a xp s vm tp c). reflexivity.
Qed.

Lemma steps_add (n j : nat) (tp : Tape) :
  forall (m : model) (c : nat),
  steps (n + j) m tp c = steps j (fst (steps n m tp c)) tp (snd (steps n m tp c)).
Proof.
  induction n as [|n IH]; intros m c.
  - reflexivity.
  - change (S n + j)%nat with (S (n + j)). rewrite !steps_S. apply IH.
Qed.

Lemma Forall2_Forall_l {A : Type} (P Q : A -> Prop) (Rel : A -> A -> Prop)
      (l1 l2 : list A) :
  (forall a b, P a -> Rel a b -> Q b) ->
  Forall P l1 -> Forall2 Rel l1 l2 -> Forall Q l2.
Proof.
  intros HQ HP H. induction H; inversion HP; subst; constructor; eauto.
Qed.

Lemma update_not_drawn (p : particle) (t : Z) (k f : R) (tp : Tape) (c : nat) :
  state p = unassembled -> ~ tp c < transformation_probability k f t ->
  fst (update p t k f tp c) = bounce_y (bounce_x (move p)).
Proof.
  intros Hs Hr. rewrite (update_unassembled _ _ _ _ _ _ Hs).
  apply Rltb_false in Hr. rewrite Hr. reflexivity.
Qed.

(** ** The bounds [update] enforces *)

Lemma update_in_fixed_box (p : particle) (t : Z) (k f : R) (tp : Tape) (c : nat) :
  state (fst (update p t k f tp c)) = unassembled ->
  in_fixed_box (fst (update p t k f tp c)).
Proof.
  destruct (state p) eqn:Hs.
  - intros Hq. rewrite (update_moved _ _ _ _ _ _ Hs Hq). split.
    + rewrite bounce_y_x. apply bounce_x_range.
    + apply bounce_y_range.
  - rewrite (update_assembled _ _ _ _ _ _ Hs). simpl. congruence.
Qed.

(** C10: an update that moves the particle (it was unassembled and is still
    unassembled afterwards) leaves it in [[0,10] x [0,1]], the bounds written
    in [update]; so after a call of [step()] that returns, every unassembled
    particle lies in that rectangle, whatever [length] and [width] the model
    holds. *)
Theorem C10_fixed_clamp_bounds :
  (forall (p : particle) (t : Z) (k f : R) (tp : Tape) (c : nat),
      state p = unassembled ->
      state (fst (update p t k f tp c)) = unassembled ->
      in_fixed_box (fst (update p t k f tp c))) /\
  (forall (m : model) (tp : Tape) (c : nat),
      fst (fst (step m tp c)) = Returned tt ->
      Forall (fun p => state p = unassembled -> in_fixed_box p)
             (particles (snd (fst (step m tp c))))).
Proof.
  split.
  - intros p t k f tp c _. apply update_in_fixed_box.
  - intros m tp c Hret. rewrite step_unfold in *. simpl in *.
    apply Forall2_Forall with
      (Rel := fun _ q : particle => state q = unassembled -> in_fixed_box q)
      (l1 := particles m); [auto|].
    apply update_all_returned with (k := k0 m); [|reflexivity|assumption].
    intros p t f c0. apply update_in_fixed_box.
Qed.

Lemma C10_witness :
  in_fixed_box (fst (update p_edge 1 0.1 1 tape_half 0%nat)) /\
  length m_short = 5 /\
  Forall (fun p => state p = unassembled -> in_fixed_box p)
         (particles (snd (fst (step m_short tape_edge 4%nat)))).
Proof.
  split; [|split].
  - apply (proj1 C10_fixed_clamp_bounds); [reflexivity|].
    rewrite update_not_drawn;
      [rewrite bounce_y_state, bounce_x_state; reflexivity | reflexivity |].
    pose proof (probability_le 0.1 1 1) as H. simpl in H.
    unfold tape_half. lra.
  - reflexivity.
  - apply (proj2 C10_fixed_clamp_bounds).
    apply step_returns. simpl. lra.
Defined.

(** ** State and transformation time *)

Lemma consistent_update (k : R) (tp : Tape) (p : particle) (t : Z) (f : R) (c : nat) :
  keeps_consistent p (fst (update p t k f tp c)).
Proof.
  unfold keeps_consistent, consistent. intros Hp.
  destruct (state p) eqn:Hs.
  - rewrite (update_unassembled _ _ _ _ _ _ Hs).
    destruct (Rltb _ _); simpl.
    + split; [reflexivity | discriminate].
    + rewrite bounce_y_state, bounce_x_state, bounce_y_time, bounce_x_time.
      simpl. rewrite Hs. assumption.
  - rewrite (update_assembled _ _ _ _ _ _ Hs). simpl. rewrite Hs. assumption.
Qed.

Lemma steps_consistent (n : nat) (m : model) (tp : Tape) (c : nat) :
  Forall consistent (particles m) ->
  Forall consistent (particles (fst (steps n m tp c))).
Proof.
  intros Hm.
  apply Forall2_Forall_l with (P := consistent) (Rel := keeps_consistent)
                              (l1 := particles m); [auto | assumption |].
  apply steps_rel with (k := k0 m).
  - apply consistent_update.
  - intros p Hp. assumption.
  - intros p q r Hpq Hqr Hp. auto.
  - reflexivity.
Qed.

Lemma init_consistent (N : Z) (w l k a xp s vm : R) (tp : Tape) (c : nat) :
  Forall consistent (particles (fst (SelfAssemblyModel.__init__ N w l k a xp s vm tp c))).
Proof.
  rewrite init_particles.
  eapply Forall_impl; [|apply make_particles_fresh].
  intros p [Hs Ht]. unfold consistent. rewrite Hs, Ht.
  split; [congruence | discriminate].
Qed.

(** C6: in a model built by the constructor, after any number of calls of
    [step()] every particle has a transformation time exactly when it is
    assembled; and a particle that is assembled after [n] calls is still
    assembled, with the same transformation time, after [n + j] calls. *)
Theorem C6_state_and_transformation_time :
  forall (N : Z) (w l k a xp s vm : R) (tp : Tape) (c n : nat),
    Forall consistent (particles (fst (simulate N w l k a xp s vm n tp c))) /\
    forall (j i : nat) (p : particle),
      nth_error (particles (fst (simulate N w l k a xp s vm n tp c))) i = Some p ->
      state p = assembled ->
      exists q : particle,
        nth_error (particles (fst (simulate N w l k a xp s vm (n + j) tp c))) i = Some q /\
        state q = assembled /\
        transformation_time q = transformation_time p.
Proof.
  intros N w l k a xp s vm tp c n. rewrite simulate_unfold. split.
  - apply steps_consistent. apply init_consistent.
  - intros j i p Hi Hs. rewrite simulate_unfold, steps_add.
    set (mn := steps n _ tp _) in *.
    destruct (Forall2_nth_error _ _ _ (steps_frozen j (fst mn) tp (snd mn)) i p Hi)
      as (q & Hq & Hrel).
    exists q. rewrite (Hrel Hs). rewrite (Hrel Hs) in Hq. auto.
Qed.

(** The script's parameters with one particle and a generator of zeros: the
    particle transforms in the first step. *)
Lemma simulate_corner :
  particles (fst (simulate 1 1 10 0.1 0 3 1 0.05 1 tape_zero 0%nat)) =
  [assemble p_corner 1].
Proof.
  rewrite simulate_unfold, steps_S, init_unfold. simpl steps. unfold ret.
  cbn [fst snd].
  rewrite (step_one _ p_corner); [| reflexivity | simpl; lra | reflexivity].
  cbn [fst snd with_particles particles tick k0 alpha time].
  replace (Rltb _ _) with true; [reflexivity|].
  symmetry. apply Rltb_true. unfold tape_zero.
  apply probability_pos; [lra | discriminate].
Qed.

Lemma C6_witness :
  Forall consistent
    (particles (fst (simulate 1 1 10 0.1 0 3 1 0.05 1 tape_zero 0%nat))) /\
  exists q : particle,
    nth_error (particles (fst (simulate 1 1 10 0.1 0 3 1 0.05 (1 + 1) tape_zero 0%nat)))
              0%nat = Some q /\
    state q = assembled /\
    transformation_time q = Some 1%Z.
Proof.
  destruct (C6_state_and_transformation_time 1 1 10 0.1 0 3 1 0.05 tape_zero 0%nat 1%nat)
    as [H1 H2].
  split; [exact H1|].
  apply (H2 1%nat 0%nat (assemble p_corner 1)).
  - rewrite simulate_corner. reflexivity.
  - reflexivity.
Defined.

(** ** A zero rate *)

Lemma update_zero_rate (k f : R) (tp : Tape) (p : particle) (t : Z) (c : nat) :
  unit_interval tp -> k * f = 0 ->
  stays_unassembled p (fst (update p t k f tp c)).
Proof.
  intros Htp Hkf Hs.
  rewrite update_not_drawn.
  - rewrite bounce_y_state, bounce_x_state. simpl. assumption.
  - assumption.
  - rewrite (probability_zero _ _ _ Hkf). destruct (Htp c). lra.
Qed.

Lemma steps_zero_rate (n : nat) (m : model) (tp : Tape) (c : nat) :
  unit_interval tp -> k0 m = 0 ->
  Forall2 stays_unassembled (particles m) (particles (fst (steps n m tp c))).
Proof.
  intros Htp Hk. apply steps_rel with (k := 0).
  - intros p t f c0. apply update_zero_rate; [assumption | ring].
  - intros p Hp. assumption.
  - intros p q r Hpq Hqr Hp. auto.
  - assumption.
Qed.

(** C7: when [k0 * f_x = 0] the transformation probability is zero and an
    update with a draw from [[0,1)] leaves an unassembled particle
    unassembled; in a model constructed with [k0 = 0] every particle is
    unassembled after any number of calls of [step()], whatever the draws. *)
Theorem C7_zero_rate_never_transforms :
  (forall (k f : R) (t : Z),
      k * f = 0 -> transformation_probability k f t = 0) /\
  (forall (p : particle) (t : Z) (k f : R) (tp : Tape) (c : nat),
      unit_interval tp -> k * f = 0 -> state p = unassembled ->
      state (fst (update p t k f tp c)) = unassembled) /\
  (forall (N : Z) (w l a xp s vm : R) (tp : Tape) (c n : nat),
      unit_interval tp ->
      Forall (fun p => state p = unassembled)
             (particles (fst (simulate N w l 0 a xp s vm n tp c)))).
Proof.
  split; [|split].
  - apply probability_zero.
  - intros p t k f tp c Htp Hkf Hs. apply (update_zero_rate k f tp p t c); assumption.
  - intros N w l a xp s vm tp c n Htp. rewrite simulate_unfold.
    set (r := SelfAssemblyModel.__init__ N w l 0 a xp s vm tp c).
    apply Forall2_Forall_l with
      (P := fun p => state p = unassembled /\ transformation_time p = None)
      (Rel := stays_unassembled) (l1 := particles (fst r)).
    + intros p q [Hp _] Hpq. auto.
    + unfold r. rewrite init_particles. apply make_particles_fresh.
    + apply steps_zero_rate; [assumption|]. unfold r. rewrite init_unfold. reflexivity.
Qed.

Lemma tape_half_unit : unit_interval tape_half.
Proof. intros n. unfold tape_half. lra. Qed.

Lemma C7_witness :
  transformation_probability 0 1 5 = 0 /\
  state (fst (update p_edge 5 0 1 tape_half 0%nat)) = unassembled /\
  Forall (fun p => state p = unassembled)
         (particles (fst (simulate 100 1 10 0 0 3 1 0.05 100 tape_half 0%nat))).
Proof.
  destruct C7_zero_rate_never_transforms as (H1 & H2 & H3).
  split; [|split].
  - apply H1. lra.
  - apply H2; [exact tape_half_unit | lra | reflexivity].
  - apply H3. exact tape_half_unit.
Defined.

(** ** The channel of the model *)

Lemma tape_edge_unit : unit_interval tape_edge.
Proof.
  intros [|[|[|n]]]; unfold tape_edge; lra.
Qed.

(** C1 (the code departs from it): with [length = 5] the constructor places a
    particle at [x = 4.98] with [vx = 0.04]; the first [step()] moves it to
    [x = 5.02], outside the channel of the model, because [update] compares
    against 10 and not against [length]. *)
Theorem C1_particle_leaves_short_channel :
  unit_interval tape_edge /\
  length m_short = 5 /\ width m_short = 1 /\
  Forall (in_channel m_short) (particles m_short) /\
  exists p : particle,
    particles (fst (simulate 1 1 5 0.1 0 3 1 0.05 1 tape_edge 0%nat)) = [p] /\
    state p = unassembled /\
    x p = 5.02 /\
    ~ in_channel (fst (simulate 1 1 5 0.1 0 3 1 0.05 1 tape_edge 0%nat)) p.
Proof.
  split; [exact tape_edge_unit|].
  split; [reflexivity|]. split; [reflexivity|]. split.
  - constructor; [|constructor]. unfold in_channel. simpl. lra.
  - set (p0 := Particle.__init__ (0 + (5 - 0) * 0.996) (0 + (1 - 0) * 0.5)
                 (- (0.05) + (0.05 - - (0.05)) * 0.9,
                  - (0.05) + (0.05 - - (0.05)) * 0.5)).
    assert (Hrun : fst (simulate 1 1 5 0.1 0 3 1 0.05 1 tape_edge 0%nat) =
                   with_particles (tick m_short) [move p0]).
    { rewrite simulate_unfold, steps_S. fold m_short.
      rewrite init_unfold. simpl steps. unfold ret. cbn [fst snd].
      rewrite (step_one _ p0); [| reflexivity | simpl; lra | reflexivity].
      cbn [fst snd].
      replace (Rltb _ _) with false.
      - rewrite bounce_x_inside by (simpl; lra).
        rewrite bounce_y_inside by (simpl; lra). reflexivity.
      - symmetry. apply Rltb_false.
        match goal with |- ~ _ < transformation_probability ?k ?f ?t =>
          pose proof (probability_le k f t) as H end.
        simpl in H. simpl. lra. }
    exists (move p0). rewrite Hrun.
    split; [reflexivity|]. split; [reflexivity|]. split.
    + simpl. lra.
    + unfold in_channel. simpl. lra.
Qed.

(** ** Parameters the constructor does not check *)

Lemma steps_sigma (n : nat) (m : model) (tp : Tape) (c : nat) :
  sigma (fst (steps n m tp c)) = sigma m.
Proof. destruct (steps_parameters n tp m c) as (_ & _ & _ & _ & _ & H & _). exact H. Qed.

(** C2 (as stated, it fails): the constructor returns a model for
    [sigma = 0], and the first [step()] is where the division raises, after
    [time] has been advanced; it returns a model for a negative [length] and
    [width] too, and [step()] then returns normally. *)
Lemma C2_construction_does_not_fail :
  (sigma m_flat = 0 /\ List.length (particles m_flat) = 1%nat /\ time m_flat = 0%Z /\
   step m_flat tape_half 4%nat = (Raised ZeroDivisionError, tick m_flat, 4%nat)) /\
  (length m_negative = -10 /\ width m_negative = -1 /\
   List.length (particles m_negative) = 1%nat /\
   fst (fst (step m_negative tape_half 4%nat)) = Returned tt).
Proof.
  split.
  - split; [reflexivity|]. split; [reflexivity|]. split; [reflexivity|].
    apply step_raises; [reflexivity | discriminate].
  - split; [reflexivity|]. split; [reflexivity|]. split; [reflexivity|].
    apply step_returns. simpl. lra.
Qed.

(** C2 (amended): the constructor checks nothing: also for [sigma = 0] and
    for a [length] or [width] that is not positive it returns a model that
    stores the arguments as given.  A [sigma = 0] shows only later, when the
    correction factor is computed: a [step()] of such a model with a particle
    raises, having advanced [time] and nothing else. *)
Theorem C2_parameters_are_not_validated :
  forall (N : Z) (w l k a xp s vm : R) (tp : Tape) (c : nat),
    let m := fst (SelfAssemblyModel.__init__ N w l k a xp s vm tp c) in
    (width m = w /\ length m = l /\ sigma m = s /\
     List.length (particles m) = Z.to_nat N /\ time m = 0%Z) /\
    (s = 0 -> forall x0 : R, exists e : PyError, correction_factor m x0 = Raised e) /\
    (s = 0 -> (0 < N)%Z ->
     forall (tp' : Tape) (c' : nat),
       exists e : PyError, step m tp' c' = (Raised e, tick m, c')).
Proof.
  intros N w l k a xp s vm tp c m.
  assert (Hm : sigma m = s) by (unfold m; rewrite init_unfold; reflexivity).
  assert (Hlen : List.length (particles m) = Z.to_nat N).
  { unfold m. rewrite init_particles. apply make_particles_length. }
  split; [|split].
  - split; [|split; [|split; [|split]]]; try assumption;
      unfold m; rewrite init_unfold; reflexivity.
  - intros Hs x0. exists ZeroDivisionError.
    apply correction_factor_raised. congruence.
  - intros Hs HN tp' c'. exists ZeroDivisionError.
    apply step_raises; [congruence|].
    intros Hnil. rewrite Hnil in Hlen. simpl in Hlen. lia.
Qed.

Lemma C2_witness :
  (exists e : PyError, correction_factor m_flat 5 = Raised e) /\
  (exists e : PyError, step m_flat tape_half 4%nat = (Raised e, tick m_flat, 4%nat)).
Proof.
  split.
  - apply (C2_parameters_are_not_validated 1 1 10 0.1 0 3 0 0.05 tape_half 0%nat).
    reflexivity.
  - apply (C2_parameters_are_not_validated 1 1 10 0.1 0 3 0 0.05 tape_half 0%nat).
    + reflexivity.
    + lia.
Defined.

(** ** What a run reads from the generator *)

Lemma agree_weaken (tp1 tp2 : Tape) (c k c' k' : nat) :
  agree tp1 tp2 c k -> (c <= c')%nat -> (c' + k' <= c + k)%nat ->
  agree tp1 tp2 c' k'.
Proof. intros H Hc Hk i Hi. apply H. lia. Qed.

Section TwoRuns.

Variables tp1 tp2 : Tape.

Lemma update_agree (p : particle) (t : Z) (k f : R) (c : nat) :
  tp1 c = tp2 c -> update p t k f tp1 c = update p t k f tp2 c.
Proof.
  intros H. destruct (state p) eqn:Hs.
  - rewrite !update_unassembled by assumption. rewrite H. reflexivity.
  - rewrite !update_assembled by assumption. reflexivity.
Qed.

Lemma update_cursor (tp : Tape) (p : particle) (t : Z) (k f : R) (c : nat) :
  (c <= snd (update p t k f tp c) <= S c)%nat.
Proof.
  destruct (state p) eqn:Hs.
  - rewrite update_unassembled by assumption. simpl. lia.
  - rewrite update_assembled by assumption. simpl. lia.
Qed.

Lemma update_all_cursor (tp : Tape) (m : model) :
  forall (ps : list particle) (c : nat),
  (c <= snd (update_all m ps tp c) <= c + List.length ps)%nat /\
  List.length (snd (fst (update_all m ps tp c))) = List.length ps.
Proof.
  induction ps as [|p ps IH]; intros c; simpl.
  - split; [lia | reflexivity].
  - destruct (correction_factor m (x p)) as [f|e]; simpl; [|split; [lia | reflexivity]].
    unfold bind, ret.
    pose proof (update_cursor tp p (time m) (k0 m) f c) as Hc.
    destruct (update p (time m) (k0 m) f tp c) as [p' c']. simpl in Hc.
    specialize (IH c').
    destruct (update_all m ps tp c') as [[res rest] c'']. simpl in *.
    split; [lia | f_equal; apply IH].
Qed.

Lemma update_all_agree (m : model) :
  forall (ps : list particle) (c : nat),
  agree tp1 tp2 c (List.length ps) ->
  update_all m ps tp1 c = update_all m ps tp2 c.
Proof.
  induction ps as [|p ps IH]; intros c Hag; simpl.
  - reflexivity.
  - destruct (correction_factor m (x p)) as [f|e]; [|reflexivity].
    unfold bind, ret.
    rewrite (update_agree p (time m) (k0 m) f c) by (apply Hag; simpl; lia).
    pose proof (update_cursor tp2 p (time m) (k0 m) f c) as Hc.
    destruct (update p (time m) (k0 m) f tp2 c) as [p' c']. simpl in Hc.
    rewrite (IH c') by (apply (agree_weaken _ _ _ _ _ _ Hag); simpl; lia).
    destruct (update_all m ps tp2 c') as [[res rest] c'']. reflexivity.
Qed.

Lemma step_agree (m : model) (c : nat) :
  agree tp1 tp2 c (List.length (particles m)) -> step m tp1 c = step m tp2 c.
Proof.
  intros Hag. rewrite !step_unfold.
  rewrite (update_all_agree (tick m) (particles m) c Hag). reflexivity.
Qed.

Lemma step_cursor (tp : Tape) (m : model) (c : nat) :
  (c <= snd (step m tp c) <= c + List.length (particles m))%nat /\
  List.length (particles (snd (fst (step m tp c)))) = List.length (particles m).
Proof.
  rewrite step_unfold. simpl. apply update_all_cursor.
Qed.

Lemma trajectory_S (tp : Tape) (n : nat) (m : model) (c : nat) :
  trajectory (S n) m tp c =
  (snd (fst (step m tp c))
   :: fst (trajectory n (snd (fst (step m tp c))) tp (snd (step m tp c))),
   snd (trajectory n (snd (fst (step m tp c))) tp (snd (step m tp c)))).
Proof.
  simpl. unfold bind, ret.
  destruct (step m tp c) as [[res m'] c']. simpl.
  destruct (trajectory n m' tp c'). reflexivity.
Qed.

Lemma trajectory_agree (n : nat) :
  forall (m : model) (c : nat),
  agree tp1 tp2 c (n * List.length (particles m)) ->
  trajectory n m tp1 c = trajectory n m tp2 c.
Proof.
  induction n as [|n IH]; intros m c Hag.
  - reflexivity.
  - rewrite !trajectory_S.
    assert (Hstep : step m tp1 c = step m tp2 c).
    { apply step_agree. apply (agree_weaken _ _ _ _ _ _ Hag); simpl; lia. }
    rewrite Hstep.
    destruct (step_cursor tp2 m c) as [Hc Hlen].
    rewrite (IH (snd (fst (step m tp2 c))) (snd (step m tp2 c))); [reflexivity|].
    rewrite Hlen. apply (agree_weaken _ _ _ _ _ _ Hag); simpl; lia.
Qed.

Lemma make_particles_agree (w l vm : R) (n : nat) :
  forall c : nat,
  agree tp1 tp2 c (4 * n) ->
  make_particles n w l vm tp1 c = make_particles n w l vm tp2 c.
Proof.
  induction n as [|n IH]; intros c Hag.
  - reflexivity.
  - rewrite !make_particles_S.
    rewrite (IH (S (S (S (S c))))) by (apply (agree_weaken _ _ _ _ _ _ Hag); lia).
    rewrite !(Hag c), !(Hag (S c)), !(Hag (S (S c))), !(Hag (S (S (S c)))) by lia.
    reflexivity.
Qed.

End TwoRuns.

(** C9: two runs with the same constructor arguments and the same number of
    calls of [step()], fed by generators that deliver the same values on the
    draws a run can consume (four per particle at construction, at most one
    per particle and step), produce the same models after construction and
    after every step: every position, state and transformation time. *)
Theorem C9_two_run_determinism :
  forall (N : Z) (w l k a xp s vm : R) (n : nat) (tp1 tp2 : Tape) (c : nat),
    agree tp1 tp2 c (4 * Z.to_nat N + n * Z.to_nat N) ->
    simulate_trajectory N w l k a xp s vm n tp1 c =
    simulate_trajectory N w l k a xp s vm n tp2 c.
Proof.
  intros N w l k a xp s vm n tp1 tp2 c Hag.
  unfold simulate_trajectory, bind, ret.
  rewrite !init_unfold.
  rewrite (make_particles_agree tp1 tp2 w l vm (Z.to_nat N) c)
    by (apply (agree_weaken _ _ _ _ _ _ Hag); lia).
  destruct (make_particles_length (Z.to_nat N) w l vm tp2 c) as [Hlen Hcur].
  set (m := {| width := w; particles := fst (make_particles (Z.to_nat N) w l vm tp2 c) |}).
  rewrite (trajectory_agree tp1 tp2 n m); [reflexivity|].
  unfold m. simpl. rewrite Hlen, Hcur.
  apply (agree_weaken _ _ _ _ _ _ Hag); lia.
Qed.

Lemma C9_witness :
  agree tape_half tape_half_then_zero 0 (4 * Z.to_nat 1 + 2 * Z.to_nat 1) /\
  tape_half 8%nat <> tape_half_then_zero 8%nat /\
  simulate_trajectory 1 1 10 0.1 0 3 1 0.05 2 tape_half 0%nat =
  simulate_trajectory 1 1 10 0.1 0 3 1 0.05 2 tape_half_then_zero 0%nat.
Proof.
  assert (H : agree tape_half tape_half_then_zero 0 (4 * Z.to_nat 1 + 2 * Z.to_nat 1)).
  { intros i Hi. simpl in Hi. unfold tape_half, tape_half_then_zero.
    destruct (Nat.ltb_spec i 8); [reflexivity | lia]. }
  split; [exact H|]. split.
  - unfold tape_half, tape_half_then_zero. simpl. lra.
  - apply C9_two_run_determinism. exact H.
Defined.

(** * Further properties of the simulation core *)

(** ** Population and clock *)

Lemma steps_length (n : nat) (m : model) (tp : Tape) (c : nat) :
  List.length (particles (fst (steps n m tp c))) = List.length (particles m).
Proof.
  symmetry. apply Forall2_length with (R := fun _ _ : particle => True).
  apply steps_rel with (k := k0 m); auto.
Qed.

(** X1: The population is created once: the constructor builds [max(N, 0)]
    particles and no call of [step()] adds or removes one. *)
Theorem population_is_fixed :
  forall (N : Z) (w l k a xp s vm : R) (n : nat) (tp : Tape) (c : nat),
    List.length (particles (fst (simulate N w l k a xp s vm n tp c))) = Z.to_nat (Z.max N 0).
Proof.
  intros. rewrite simulate_unfold, steps_length, init_particles.
  destruct (make_particles_length (Z.to_nat N) w l vm tp c) as [H _].
  rewrite H. lia.
Qed.

Lemma steps_time (n : nat) (tp : Tape) :
  forall (m : model) (c : nat),
  time (fst (steps n m tp c)) = (time m + Z.of_nat n)%Z.
Proof.
  induction n as [|n IH]; intros m c.
  - simpl. lia.
  - rewrite steps_S, IH, step_unfold. simpl time. lia.
Qed.

(** X2: The clock counts the calls: after [n] calls of [step()] on a constructed
    model [time] is [n], also when calls raised. *)
Theorem time_counts_calls :
  forall (N : Z) (w l k a xp s vm : R) (n : nat) (tp : Tape) (c : nat),
    time (fst (simulate N w l k a xp s vm n tp c)) = Z.of_nat n.
Proof.
  intros. rewrite simulate_unfold, steps_time, init_unfold. simpl. lia.
Qed.

(** ** What a step reads from the generator *)

Lemma update_draws (p : particle) (t : Z) (k f : R) (tp : Tape) (c : nat) :
  snd (update p t k f tp c) = (c + count_state unassembled [p])%nat.
Proof.
  unfold count_state, in_state. simpl. destruct (state p) eqn:Hs; simpl.
  - rewrite update_unassembled by assumption. simpl. lia.
  - rewrite update_assembled by assumption. simpl. lia.
Qed.

Lemma count_state_cons (s : State) (p : particle) (ps : list particle) :
  count_state s (p :: ps) = (count_state s [p] + count_state s ps)%nat.
Proof.
  unfold count_state. simpl. destruct (in_state s p); reflexivity.
Qed.

Lemma update_all_draws (m : model) (tp : Tape) :
  forall (ps : list particle) (c : nat),
  fst (fst (update_all m ps tp c)) = Returned tt ->
  snd (update_all m ps tp c) = (c + count_state unassembled ps)%nat.
Proof.
  induction ps as [|p ps IH]; intros c.
  - intros _. simpl. unfold count_state. simpl. lia.
  - simpl. destruct (correction_factor m (x p)) as [f|e]; [|discriminate].
    unfold bind, ret.
    pose proof (update_draws p (time m) (k0 m) f tp c) as Hc.
    destruct (update p (time m) (k0 m) f tp c) as [p' c']. simpl in Hc.
    specialize (IH c').
    destruct (update_all m ps tp c') as [[res rest] c'']. simpl in *.
    intros Hret. rewrite (count_state_cons _ p ps), (IH Hret). lia.
Qed.

(** X3: A call of [step()] that returns has drawn exactly one random number
    for each particle that was unassembled when the call started, and none
    for the assembled ones. *)
Theorem step_draws_one_per_unassembled :
  forall (m : model) (tp : Tape) (c : nat),
    fst (fst (step m tp c)) = Returned tt ->
    snd (step m tp c) = (c + count_state unassembled (particles m))%nat.
Proof.
  intros m tp c. rewrite step_unfold. cbn [fst snd].
  apply (update_all_draws (tick m) tp).
Qed.

Lemma step_draws_witness :
  snd (step m_short tape_edge 4%nat) = (4 + 1)%nat /\
  snd (step m_done tape_half 0%nat) = 0%nat.
Proof.
  split.
  - apply (step_draws_one_per_unassembled m_short tape_edge 4%nat).
    apply step_returns. simpl. lra.
  - apply (step_draws_one_per_unassembled m_done tape_half 0%nat).
    apply step_returns. simpl. lra.
Defined.

Lemma update_all_nth (m : model) (tp : Tape) :
  forall (ps : list particle) (c i : nat) (p : particle),
  fst (fst (update_all m ps tp c)) = Returned tt ->
  nth_error ps i = Some p ->
  exists f : R,
    correction_factor m (x p) = Returned f /\
    nth_error (snd (fst (update_all m ps tp c))) i =
    Some (fst (update p (time m) (k0 m) f tp
                 (c + count_state unassembled (firstn i ps))%nat)).
Proof.
  induction ps as [|p0 ps IH]; intros c i p Hret Hi.
  - destruct i; discriminate.
  - simpl update_all in *.
    destruct (correction_factor m (x p0)) as [f0|e] eqn:Ef; [|discriminate].
    unfold bind, ret in *.
    pose proof (update_draws p0 (time m) (k0 m) f0 tp c) as Hc.
    destruct (update p0 (time m) (k0 m) f0 tp c) as [p' c'] eqn:E. simpl in Hc.
    specialize (IH c').
    destruct (update_all m ps tp c') as [[res rest] c'']. simpl in IH, Hret. simpl.
    destruct i as [|i]; simpl in *.
    + injection Hi as <-. exists f0. split; [assumption|].
      unfold count_state. simpl. rewrite Nat.add_0_r, E. reflexivity.
    + destruct (IH i p Hret Hi) as (f & Hf & Hnth).
      exists f. split; [assumption|].
      rewrite Hnth, (count_state_cons _ p0 (firstn i ps)), Hc.
      do 3 f_equal. lia.
Qed.

(** X4: How a [step()] that returns composes the updates: particle [i] of the
    new population is the update of particle [i] of the old one, at the new
    time, with the correction factor of its old position and with the draw
    whose index is the number of unassembled particles before it. *)
Theorem step_updates_each_particle :
  forall (m : model) (tp : Tape) (c i : nat) (p : particle),
    fst (fst (step m tp c)) = Returned tt ->
    nth_error (particles m) i = Some p ->
    exists f : R,
      correction_factor m (x p) = Returned f /\
      nth_error (particles (snd (fst (step m tp c)))) i =
      Some (fst (update p (time m + 1) (k0 m) f tp
                   (c + count_state unassembled (firstn i (particles m)))%nat)).
Proof.
  intros m tp c i p. rewrite step_unfold. cbn [fst snd]. intros Hret Hi.
  exact (update_all_nth (tick m) tp (particles m) c i p Hret Hi).
Qed.

Lemma step_updates_witness :
  exists (p : particle) (f : R),
    nth_error (particles m_short) 0 = Some p /\
    correction_factor m_short (x p) = Returned f /\
    nth_error (particles (snd (fst (step m_short tape_edge 4%nat)))) 0 =
    Some (fst (update p (time m_short + 1) (k0 m_short) f tape_edge
                 (4 + count_state unassembled (firstn 0 (particles m_short)))%nat)).
Proof.
  eexists.
  destruct (step_updates_each_particle m_short tape_edge 4%nat 0%nat _
              ltac:(apply step_returns; simpl; lra) eq_refl) as (f & Hf & Hnth).
  exists f. split; [reflexivity|]. split; [exact Hf | exact Hnth].
Defined.

(** ** Calls that only advance the clock *)

Lemma tick_steps_particles (n : nat) (tp : Tape) (c : nat) :
  forall m : model,
  (forall m' : model, particles m' = particles m -> sigma m' = sigma m ->
                      step m' tp c = (fst (fst (step m' tp c)), tick m', c)) ->
  particles (fst (steps n m tp c)) = particles m /\ snd (steps n m tp c) = c.
Proof.
  induction n as [|n IH]; intros m Hstep.
  - split; reflexivity.
  - rewrite steps_S, (Hstep m eq_refl eq_refl). cbn [fst snd].
    destruct (IH (tick m)) as [H1 H2].
    + intros m' Hp Hs. apply Hstep; [rewrite Hp | rewrite Hs]; reflexivity.
    + rewrite H1, H2. split; reflexivity.
Qed.

(** X5: With [sigma = 0] and a particle in the population every call of
    [step()] raises; the calls leave every particle as it was and draw
    nothing, yet each of them has advanced [time]. *)
Theorem failing_steps_advance_only_time :
  forall (m : model) (tp : Tape) (c n : nat),
    sigma m = 0 -> particles m <> [] ->
    (exists e : PyError,
        fst (fst (step (fst (steps n m tp c)) tp c)) = Raised e) /\
    particles (fst (steps n m tp c)) = particles m /\
    snd (steps n m tp c) = c /\
    time (fst (steps n m tp c)) = (time m + Z.of_nat n)%Z.
Proof.
  intros m tp c n Hs Hp.
  assert (H : particles (fst (steps n m tp c)) = particles m /\ snd (steps n m tp c) = c).
  { apply tick_steps_particles. intros m' Hp' Hs'.
    rewrite step_raises; [reflexivity | congruence | congruence]. }
  destruct H as [H1 H2]. split; [|split; [|split]].
  - exists ZeroDivisionError.
    rewrite step_raises; [reflexivity | rewrite steps_sigma; assumption | congruence].
  - assumption.
  - assumption.
  - apply steps_time.
Qed.

Lemma failing_steps_witness :
  (exists e : PyError,
      fst (fst (step (fst (steps 3 m_flat tape_half 4%nat)) tape_half 4%nat)) = Raised e) /\
  particles (fst (steps 3 m_flat tape_half 4%nat)) = particles m_flat /\
  snd (steps 3 m_flat tape_half 4%nat) = 4%nat /\
  time (fst (steps 3 m_flat tape_half 4%nat)) = 3%Z.
Proof.
  apply (failing_steps_advance_only_time m_flat tape_half 4%nat 3%nat).
  - reflexivity.
  - discriminate.
Defined.

Lemma update_all_assembled (m : model) (tp : Tape) :
  forall (ps : list particle) (c : nat),
  Forall (fun p => state p = assembled) ps ->
  snd (fst (update_all m ps tp c)) = ps /\ snd (update_all m ps tp c) = c.
Proof.
  induction ps as [|p ps IH]; intros c Hall.
  - split; reflexivity.
  - inversion Hall as [|? ? Hp Hps]; subst. simpl.
    destruct (correction_factor m (x p)) as [f|e]; [|split; reflexivity].
    unfold bind, ret. rewrite update_assembled by assumption.
    destruct (IH c Hps) as [H1 H2].
    destruct (update_all m ps tp c) as [[res rest] c']. simpl in *.
    subst. split; reflexivity.
Qed.

(** X6: The model does not notice that it is fully assembled: once every
    particle is assembled, further calls of [step()], whether they return or
    raise, leave every particle as it is and draw nothing; only [time]
    advances. *)
Theorem fully_assembled_model_idles :
  forall (m : model) (tp : Tape) (c n : nat),
    Forall (fun p => state p = assembled) (particles m) ->
    particles (fst (steps n m tp c)) = particles m /\
    snd (steps n m tp c) = c /\
    time (fst (steps n m tp c)) = (time m + Z.of_nat n)%Z.
Proof.
  intros m tp c n Hall.
  destruct (tick_steps_particles n tp c m) as [H1 H2].
  - intros m' Hp' Hs'. rewrite step_unfold.
    destruct (update_all_assembled (tick m') tp (particles m') c) as [Ha Hb].
    + rewrite Hp'. assumption.
    + rewrite Ha, Hb. reflexivity.
  - split; [assumption|]. split; [assumption|]. apply steps_time.
Qed.

Lemma fully_assembled_witness :
  particles (fst (steps 5 m_done tape_half 0%nat)) = [p_done] /\
  snd (steps 5 m_done tape_half 0%nat) = 0%nat /\
  time (fst (steps 5 m_done tape_half 0%nat)) = 6%Z.
Proof.
  apply (fully_assembled_model_idles m_done tape_half 0%nat 5%nat).
  constructor; [reflexivity | constructor].
Defined.

Lemma steps_empty (w l k a xp s vm : R) (tp : Tape) (c j : nat) :
  forall t : Z,
  steps j {| width := w; length := l; k0 := k; alpha := a; x_p := xp;
             sigma := s; velocity_mag := vm; particles := []; time := t |} tp c =
  ({| width := w; length := l; k0 := k; alpha := a; x_p := xp;
      sigma := s; velocity_mag := vm; particles := [];
      time := (t + Z.of_nat j)%Z |}, c).
Proof.
  induction j as [|j IH]; intros t.
  - simpl. unfold ret. do 2 f_equal. lia.
  - rewrite steps_S, step_unfold. simpl fst. simpl snd.
    unfold with_particles, tick. simpl. rewrite IH. do 2 f_equal. lia.
Qed.

(** X7: A model without particles ([N <= 0]): the constructor draws nothing,
    and every call of [step()] returns normally, draws nothing and only
    advances [time], also with [sigma = 0], since the correction factor is
    never evaluated. *)
Theorem empty_population_only_ticks :
  forall (N : Z) (w l k a xp s vm : R) (n : nat) (tp : Tape) (c : nat),
    (N <= 0)%Z ->
    simulate N w l k a xp s vm n tp c =
    ({| width := w; length := l; k0 := k; alpha := a; x_p := xp; sigma := s;
        velocity_mag := vm; particles := []; time := Z.of_nat n |}, c) /\
    step (fst (simulate N w l k a xp s vm n tp c)) tp c =
    (Returned tt,
     {| width := w; length := l; k0 := k; alpha := a; x_p := xp; sigma := s;
        velocity_mag := vm; particles := []; time := (Z.of_nat n + 1)%Z |}, c).
Proof.
  intros N w l k a xp s vm n tp c HN.
  assert (Hsim : simulate N w l k a xp s vm n tp c =
                 ({| width := w; length := l; k0 := k; alpha := a; x_p := xp;
                     sigma := s; velocity_mag := vm; particles := [];
                     time := Z.of_nat n |}, c)).
  { rewrite simulate_unfold, init_unfold.
    replace (Z.to_nat N) with 0%nat by lia. simpl make_particles. unfold ret.
    cbn [fst snd]. rewrite steps_empty. reflexivity. }
  split; [exact Hsim|].
  rewrite Hsim. cbn [fst]. rewrite step_unfold. reflexivity.
Qed.

Lemma empty_population_witness :
  simulate 0 1 10 0.1 0 3 0 0.05 7 tape_half 2%nat =
  ({| width := 1; length := 10; k0 := 0.1; alpha := 0; x_p := 3; sigma := 0;
      velocity_mag := 0.05; particles := []; time := 7 |}, 2%nat) /\
  step (fst (simulate 0 1 10 0.1 0 3 0 0.05 7 tape_half 2%nat)) tape_half 2%nat =
  (Returned tt,
   {| width := 1; length := 10; k0 := 0.1; alpha := 0; x_p := 3; sigma := 0;
      velocity_mag := 0.05; particles := []; time := 8 |}, 2%nat).
Proof.
  apply (empty_population_only_ticks 0 1 10 0.1 0 3 0 0.05 7 tape_half 2%nat). lia.
Defined.

(** ** Velocities *)

Lemma bounce_x_speed (p : particle) : same_speed p (bounce_x p).
Proof.
  unfold same_speed, bounce_x. destruct (_ || _); simpl; [|split; reflexivity].
  rewrite Rabs_Ropp. split; reflexivity.
Qed.

Lemma bounce_y_speed (p : particle) : same_speed p (bounce_y p).
Proof.
  unfold same_speed, bounce_y. destruct (_ || _); simpl; [|split; reflexivity].
  rewrite Rabs_Ropp. split; reflexivity.
Qed.

Lemma same_speed_refl (p : particle) : same_speed p p.
Proof. split; reflexivity. Qed.

Lemma same_speed_trans (p q r : particle) :
  same_speed p q -> same_speed q r -> same_speed p r.
Proof. unfold same_speed. intros [H1 H2] [H3 H4]. split; congruence. Qed.

Lemma update_speed (k : R) (tp : Tape) (p : particle) (t : Z) (f : R) (c : nat) :
  same_speed p (fst (update p t k f tp c)).
Proof.
  destruct (state p) eqn:Hs.
  - rewrite update_unassembled by assumption.
    destruct (Rltb _ _); simpl; [split; reflexivity|].
    apply same_speed_trans with (bounce_x (move p)); [|apply bounce_y_speed].
    apply (same_speed_trans p (move p)); [split; reflexivity | apply bounce_x_speed].
  - rewrite update_assembled by assumption. apply same_speed_refl.
Qed.

(** X8: A reflection flips a sign and nothing else: through any number of calls
    of [step()] each velocity component of each particle keeps the magnitude
    it had. *)
Theorem speed_is_invariant :
  forall (m : model) (tp : Tape) (c n i : nat) (p : particle),
    nth_error (particles m) i = Some p ->
    exists q : particle,
      nth_error (particles (fst (steps n m tp c))) i = Some q /\
      Rabs (fst (velocity q)) = Rabs (fst (velocity p)) /\
      Rabs (snd (velocity q)) = Rabs (snd (velocity p)).
Proof.
  intros m tp c n i p Hi.
  assert (H : Forall2 same_speed (particles m) (particles (fst (steps n m tp c)))).
  { apply steps_rel with (k := k0 m).
    - apply update_speed.
    - apply same_speed_refl.
    - apply same_speed_trans.
    - reflexivity. }
  destruct (Forall2_nth_error _ _ _ H i p Hi) as (q & Hq & Hpq).
  exists q. split; [assumption | exact Hpq].
Qed.

Lemma speed_witness :
  exists q : particle,
    nth_error (particles (fst (steps 4 m_short tape_edge 4%nat))) 0 = Some q /\
    Rabs (fst (velocity q)) = Rabs (- (0.05) + (0.05 - - (0.05)) * 0.9) /\
    Rabs (snd (velocity q)) = Rabs (- (0.05) + (0.05 - - (0.05)) * 0.5).
Proof.
  apply (speed_is_invariant m_short tape_edge 4%nat 4%nat 0%nat
           (Particle.__init__ (0 + (5 - 0) * 0.996) (0 + (1 - 0) * 0.5)
              (- (0.05) + (0.05 - - (0.05)) * 0.9, - (0.05) + (0.05 - - (0.05)) * 0.5))).
  reflexivity.
Defined.

(** ** Construction *)

Lemma uniform_range (a b r : R) :
  a <= b -> 0 <= r < 1 -> a <= a + (b - a) * r <= b.
Proof. intros Hab Hr. split; nra. Qed.

Lemma make_particles_range (n : nat) (w l vm : R) (tp : Tape) :
  unit_interval tp -> 0 <= l -> 0 <= w -> 0 <= vm ->
  forall c : nat,
  Forall (fun p => (0 <= x p <= l /\ 0 <= y p <= w) /\
                   Rabs (fst (velocity p)) <= vm /\ Rabs (snd (velocity p)) <= vm)
         (fst (make_particles n w l vm tp c)).
Proof.
  intros Htp Hl Hw Hvm. induction n as [|n IH]; intros c.
  - constructor.
  - rewrite make_particles_S. cbn [fst]. constructor; [|apply IH].
    simpl.
    pose proof (uniform_range 0 l (tp c) Hl (Htp c)).
    pose proof (uniform_range 0 w (tp (S c)) Hw (Htp (S c))).
    assert (Hv : - vm <= vm) by lra.
    pose proof (uniform_range (- vm) vm (tp (S (S c))) Hv (Htp _)).
    pose proof (uniform_range (- vm) vm (tp (S (S (S c)))) Hv (Htp _)).
    repeat split; try lra; apply Rabs_le; lra.
Qed.

(** X9: The constructor, given non-negative [length], [width] and
    [velocity_mag], places every particle inside the channel, unassembled
    and without transformation time, with both velocity components in
    [[-velocity_mag, velocity_mag]]. *)
Theorem construction_respects_parameters :
  forall (N : Z) (w l k a xp s vm : R) (tp : Tape) (c : nat),
    unit_interval tp -> 0 <= l -> 0 <= w -> 0 <= vm ->
    let m := fst (SelfAssemblyModel.__init__ N w l k a xp s vm tp c) in
    Forall (fun p => in_channel m p /\ fresh p /\
                     Rabs (fst (velocity p)) <= velocity_mag m /\
                     Rabs (snd (velocity p)) <= velocity_mag m)
           (particles m).
Proof.
  intros N w l k a xp s vm tp c Htp Hl Hw Hvm m.
  unfold m. rewrite init_unfold. cbn [fst particles]. unfold in_channel. simpl.
  pose proof (make_particles_range (Z.to_nat N) w l vm tp Htp Hl Hw Hvm c) as H1.
  pose proof (make_particles_fresh (Z.to_nat N) w l vm tp c) as H2.
  rewrite Forall_forall in *. intros p Hp.
  specialize (H1 p Hp). specialize (H2 p Hp). unfold fresh. tauto.
Qed.

Lemma construction_witness :
  Forall (fun p => in_channel m_short p /\ fresh p /\
                   Rabs (fst (velocity p)) <= velocity_mag m_short /\
                   Rabs (snd (velocity p)) <= velocity_mag m_short)
         (particles m_short).
Proof.
  apply (construction_respects_parameters 1 1 5 0.1 0 3 1 0.05 tape_edge 0%nat).
  - exact tape_edge_unit.
  - lra.
  - lra.
  - lra.
Defined.

(** X10: The speed limit holds for the whole run: in a constructed model, after
    any number of calls of [step()], no velocity component exceeds
    [velocity_mag] in magnitude. *)
Theorem speed_is_bounded :
  forall (N : Z) (w l k a xp s vm : R) (n : nat) (tp : Tape) (c : nat),
    unit_interval tp -> 0 <= vm ->
    Forall (fun p => Rabs (fst (velocity p)) <= vm /\ Rabs (snd (velocity p)) <= vm)
           (particles (fst (simulate N w l k a xp s vm n tp c))).
Proof.
  intros N w l k a xp s vm n tp c Htp Hvm. rewrite simulate_unfold.
  set (r := SelfAssemblyModel.__init__ N w l k a xp s vm tp c).
  apply Forall2_Forall_l with
    (P := fun p => Rabs (fst (velocity p)) <= vm /\ Rabs (snd (velocity p)) <= vm)
    (Rel := same_speed) (l1 := particles (fst r)).
  - intros p q [H1 H2] [H3 H4]. rewrite H3, H4. tauto.
  - unfold r. rewrite init_particles.
    assert (Hgen : forall (j c0 : nat),
               Forall (fun p => Rabs (fst (velocity p)) <= vm /\
                                Rabs (snd (velocity p)) <= vm)
                      (fst (make_particles j w l vm tp c0))).
    { induction j as [|j IH]; intros c0; [constructor|].
      rewrite make_particles_S. cbn [fst]. constructor; [|apply IH]. simpl.
      assert (Hv : - vm <= vm) by lra.
      pose proof (uniform_range (- vm) vm (tp (S (S c0))) Hv (Htp _)).
      pose proof (uniform_range (- vm) vm (tp (S (S (S c0)))) Hv (Htp _)).
      split; apply Rabs_le; lra. }
    apply Hgen.
  - apply steps_rel with (k := k0 (fst r)).
    + apply update_speed.
    + apply same_speed_refl.
    + apply same_speed_trans.
    + reflexivity.
Qed.

Lemma speed_bound_witness :
  Forall (fun p => Rabs (fst (velocity p)) <= 0.05 /\ Rabs (snd (velocity p)) <= 0.05)
         (particles (fst (simulate 100 1 10 0.1 0 3 1 0.05 100 tape_half 0%nat))).
Proof.
  apply speed_is_bounded.
  - exact tape_half_unit.
  - lra.
Defined.

(** ** The channel, when it is at least as large as the fixed bounds *)

Lemma update_stays_in (l w k : R) (tp : Tape) (p : particle) (t : Z) (f : R) (c : nat) :
  10 <= l -> 1 <= w -> stays_in l w p (fst (update p t k f tp c)).
Proof.
  intros Hl Hw Hp. destruct (state p) eqn:Hs.
  - rewrite update_unassembled by assumption.
    destruct (Rltb _ _); simpl; [assumption|].
    pose proof (bounce_x_range (move p)) as Hx.
    pose proof (bounce_y_range (bounce_x (move p))) as Hy.
    rewrite bounce_y_x. lra.
  - rewrite update_assembled by assumption. assumption.
Qed.

Lemma simulate_in_rectangle (N : Z) (w l k a xp s vm : R) (n : nat) (tp : Tape) (c : nat) :
  unit_interval tp -> 10 <= l -> 1 <= w ->
  Forall (fun p => 0 <= x p <= l /\ 0 <= y p <= w)
         (particles (fst (simulate N w l k a xp s vm n tp c))).
Proof.
  intros Htp Hl Hw. rewrite simulate_unfold.
  set (r := SelfAssemblyModel.__init__ N w l k a xp s vm tp c).
  apply Forall2_Forall_l with
    (P := fun p => 0 <= x p <= l /\ 0 <= y p <= w)
    (Rel := stays_in l w) (l1 := particles (fst r)).
  - intros p q Hp Hpq. auto.
  - unfold r. rewrite init_particles.
    assert (Hgen : forall (j c0 : nat),
               Forall (fun p => 0 <= x p <= l /\ 0 <= y p <= w)
                      (fst (make_particles j w l vm tp c0))).
    { induction j as [|j IH]; intros c0; [constructor|].
      rewrite make_particles_S. cbn [fst]. constructor; [|apply IH]. simpl.
      pose proof (uniform_range 0 l (tp c0) ltac:(lra) (Htp _)).
      pose proof (uniform_range 0 w (tp (S c0)) ltac:(lra) (Htp _)).
      lra. }
    apply Hgen.
  - apply steps_rel with (k := k0 (fst r)).
    + intros p t f c0. apply update_stays_in; assumption.
    + intros p Hp. assumption.
    + intros p q r0 Hpq Hqr Hp. auto.
    + reflexivity.
Qed.

Lemma simulate_parameters (N : Z) (w l k a xp s vm : R) (n : nat) (tp : Tape) (c : nat) :
  width (fst (simulate N w l k a xp s vm n tp c)) = w /\
  length (fst (simulate N w l k a xp s vm n tp c)) = l.
Proof.
  rewrite simulate_unfold.
  set (r := SelfAssemblyModel.__init__ N w l k a xp s vm tp c).
  destruct (steps_parameters n tp (fst r) (snd r)) as (Hw' & Hl' & _).
  rewrite Hw', Hl'. unfold r. rewrite init_unfold. split; reflexivity.
Qed.

(** X11: With [length >= 10] and [width >= 1], which includes the parameters of
    the script, every particle of a constructed model is inside the channel
    after any number of calls of [step()]. *)
Theorem channel_is_kept_when_wide :
  forall (N : Z) (w l k a xp s vm : R) (n : nat) (tp : Tape) (c : nat),
    unit_interval tp -> 10 <= l -> 1 <= w ->
    Forall (in_channel (fst (simulate N w l k a xp s vm n tp c)))
           (particles (fst (simulate N w l k a xp s vm n tp c))).
Proof.
  intros N w l k a xp s vm n tp c Htp Hl Hw.
  destruct (simulate_parameters N w l k a xp s vm n tp c) as [Hw' Hl'].
  unfold in_channel. rewrite Hw', Hl'.
  apply simulate_in_rectangle; assumption.
Qed.

Lemma channel_witness :
  Forall (in_channel (fst (simulate 100 1 10 0.1 0 3 1 0.05 100 tape_half 0%nat)))
         (particles (fst (simulate 100 1 10 0.1 0 3 1 0.05 100 tape_half 0%nat))).
Proof.
  apply channel_is_kept_when_wide.
  - exact tape_half_unit.
  - lra.
  - lra.
Defined.

(** ** The correction factor and the probability as numbers *)

Lemma gaussian_exponent_nonpos (d s : R) : s <> 0 -> - (d ^ 2) / (2 * s ^ 2) <= 0.
Proof.
  intros Hs.
  assert (Hpos : 0 < 2 * s ^ 2) by nra.
  pose proof (Rinv_0_lt_compat _ Hpos) as Hinv.
  pose proof (pow2_ge_0 d) as Hd.
  unfold Rdiv. nra.
Qed.

Lemma gaussian_exponent_mono (d1 d2 s : R) :
  s <> 0 -> d1 ^ 2 <= d2 ^ 2 ->
  - (d2 ^ 2) / (2 * s ^ 2) <= - (d1 ^ 2) / (2 * s ^ 2).
Proof.
  intros Hs Hd.
  assert (Hpos : 0 < 2 * s ^ 2) by nra.
  pose proof (Rinv_0_lt_compat _ Hpos) as Hinv.
  unfold Rdiv. nra.
Qed.

(** A factor that was returned came from a non-zero [sigma]. *)
Lemma correction_factor_inv (m : model) (x0 v : R) :
  correction_factor m x0 = Returned v ->
  sigma m <> 0 /\
  v = 1 + alpha m * exp (- ((x0 - x_p m) ^ 2) / (2 * sigma m ^ 2)).
Proof.
  intros H. destruct (Req_dec_T (sigma m) 0) as [Hs|Hs].
  - rewrite (correction_factor_raised _ _ Hs) in H. discriminate.
  - rewrite (correction_factor_returned _ _ Hs) in H. injection H as <-.
    split; [assumption | reflexivity].
Qed.

Lemma correction_factor_range (m : model) (x0 v : R) :
  0 <= alpha m -> correction_factor m x0 = Returned v -> 1 <= v <= 1 + alpha m.
Proof.
  intros Ha H. destruct (correction_factor_inv _ _ _ H) as [Hs ->].
  pose proof (exp_pos (- ((x0 - x_p m) ^ 2) / (2 * sigma m ^ 2))) as Hpos.
  pose proof (exp_le_mono _ _ (gaussian_exponent_nonpos (x0 - x_p m) _ Hs)) as Hle.
  rewrite exp_0 in Hle. nra.
Qed.

(** X13: Whenever [correction_factor] returns, for [alpha >= 0]: the value
    lies between 1 and [1 + alpha], it is [1 + alpha] at [x_p], and a
    position nearer to [x_p] never has the smaller factor. *)
Theorem correction_factor_is_a_bump :
  forall m : model, 0 <= alpha m ->
    (forall x0 v : R,
        correction_factor m x0 = Returned v -> 1 <= v <= 1 + alpha m) /\
    (forall v : R,
        correction_factor m (x_p m) = Returned v -> v = 1 + alpha m) /\
    (forall x1 x2 v1 v2 : R,
        Rabs (x1 - x_p m) <= Rabs (x2 - x_p m) ->
        correction_factor m x1 = Returned v1 ->
        correction_factor m x2 = Returned v2 ->
        v2 <= v1).
Proof.
  intros m Ha. split; [|split].
  - intros x0 v. apply correction_factor_range. assumption.
  - intros v H. destruct (correction_factor_inv _ _ _ H) as [Hs ->].
    replace (- ((x_p m - x_p m) ^ 2) / (2 * sigma m ^ 2)) with 0
      by (unfold Rdiv; ring).
    rewrite exp_0. ring.
  - intros x1 x2 v1 v2 Hd H1 H2.
    destruct (correction_factor_inv _ _ _ H1) as [Hs ->].
    destruct (correction_factor_inv _ _ _ H2) as [_ ->].
    assert (Hsq : (x1 - x_p m) ^ 2 <= (x2 - x_p m) ^ 2).
    { rewrite <- !Rsqr_pow2. apply Rsqr_le_abs_1. assumption. }
    pose proof (exp_le_mono _ _ (gaussian_exponent_mono _ _ _ Hs Hsq)) as Hle.
    apply Rplus_le_compat_l, Rmult_le_compat_l; assumption.
Qed.

Lemma correction_factor_bump_witness :
  exists v4 v7 : R,
    correction_factor m_short 4 = Returned v4 /\
    correction_factor m_short 7 = Returned v7 /\
    1 <= v7 <= 1 + alpha m_short /\
    (forall v : R, correction_factor m_short (x_p m_short) = Returned v ->
                   v = 1 + alpha m_short) /\
    v7 <= v4.
Proof.
  assert (Hs : sigma m_short <> 0) by (simpl; lra).
  destruct (correction_factor_is_a_bump m_short ltac:(simpl; lra)) as (H1 & H2 & H3).
  eexists. eexists.
  split; [apply (correction_factor_returned m_short 4 Hs)|].
  split; [apply (correction_factor_returned m_short 7 Hs)|].
  split; [apply (H1 7); apply (correction_factor_returned m_short 7 Hs)|].
  split; [exact H2|].
  apply (H3 4 7).
  - simpl. unfold Rabs. repeat destruct (Rcase_abs _); lra.
  - apply (correction_factor_returned m_short 4 Hs).
  - apply (correction_factor_returned m_short 7 Hs).
Defined.

(** X14: With a non-negative exponent coefficient [k0 * f_x] the value
    compared with the draw lies in [[0, 1]] for every step counter; so with
    [k0 >= 0] and [alpha >= 0] it does for every correction factor that
    [correction_factor] returns. *)
Theorem transformation_probability_is_a_probability :
  (forall (k f : R) (t : Z),
      0 <= k * f -> 0 <= transformation_probability k f t <= 1) /\
  (forall (m : model) (x0 f : R) (t : Z),
      0 <= alpha m -> 0 <= k0 m ->
      correction_factor m x0 = Returned f ->
      0 <= transformation_probability (k0 m) f t <= 1).
Proof.
  assert (H : forall (k f : R) (t : Z),
             0 <= k * f -> 0 <= transformation_probability k f t <= 1).
  { intros k f t Hkf. unfold transformation_probability.
    assert (Hsq : 0 <= IZR (t ^ 2)).
    { apply IZR_le. rewrite Z.pow_2_r. nia. }
    pose proof (exp_pos (- k * f * IZR (t ^ 2))) as Hpos.
    assert (Hle : exp (- k * f * IZR (t ^ 2)) <= exp 0) by (apply exp_le_mono; nra).
    rewrite exp_0 in Hle. lra. }
  split; [exact H|].
  intros m x0 f t Ha Hk Hf.
  pose proof (correction_factor_range m x0 f Ha Hf) as Hrange.
  apply H. nra.
Qed.

Lemma probability_witness :
  0 <= transformation_probability 0.1 1 20 <= 1 /\
  exists f : R,
    correction_factor m_short 4.98 = Returned f /\
    0 <= transformation_probability (k0 m_short) f 1 <= 1.
Proof.
  destruct transformation_probability_is_a_probability as [H1 H2].
  split.
  - apply H1. lra.
  - eexists. split.
    + apply (correction_factor_returned m_short 4.98). simpl. lra.
    + apply (H2 m_short 4.98).
      * simpl. lra.
      * simpl. lra.
      * apply (correction_factor_returned m_short 4.98). simpl. lra.
Defined.

(** ** Transformation times *)

Lemma Forall2_nth_error_r {A B : Type} (Rel : A -> B -> Prop) (l1 : list A) (l2 : list B) :
  Forall2 Rel l1 l2 ->
  forall (i : nat) (b : B), nth_error l2 i = Some b ->
  exists a : A, nth_error l1 i = Some a /\ Rel a b.
Proof.
  induction 1 as [|a0 b0 l1 l2 Hab _ IH]; intros [|i] b Hi; simpl in *; try discriminate.
  - injection Hi as <-. exists a0. split; [reflexivity | assumption].
  - apply IH. assumption.
Qed.

Lemma advanced_refl (T : Z) (p : particle) : advanced T p p.
Proof. split; [reflexivity | intros Hs; left; split; [assumption | reflexivity]]. Qed.

Lemma update_advanced (T : Z) (k f : R) (tp : Tape) (p : particle) (c : nat) :
  advanced T p (fst (update p T k f tp c)).
Proof.
  destruct (state p) eqn:Hs.
  - rewrite update_unassembled by assumption. split; [congruence|]. intros _.
    destruct (Rltb _ _); simpl.
    + right. split; reflexivity.
    + left. rewrite bounce_y_state, bounce_x_state, bounce_y_time, bounce_x_time.
      simpl. split; [assumption | reflexivity].
  - rewrite update_assembled by assumption. simpl. split; [reflexivity | congruence].
Qed.

Lemma update_all_advanced (m : model) (tp : Tape) :
  forall (ps : list particle) (c : nat),
  Forall2 (advanced (time m)) ps (snd (fst (update_all m ps tp c))).
Proof.
  induction ps as [|p ps IH]; intros c; simpl.
  - constructor.
  - destruct (correction_factor m (x p)) as [f|e].
    + unfold bind, ret.
      pose proof (update_advanced (time m) (k0 m) f tp p c) as Hp.
      destruct (update p (time m) (k0 m) f tp c) as [p' c'].
      specialize (IH c').
      destruct (update_all m ps tp c') as [[res rest] c'']. simpl in *.
      constructor; assumption.
    + simpl. clear IH. induction (p :: ps); constructor; auto using advanced_refl.
Qed.

Lemma simulate_S (N : Z) (w l k a xp s vm : R) (n : nat) (tp : Tape) (c : nat) :
  fst (simulate N w l k a xp s vm (S n) tp c) =
  snd (fst (step (fst (simulate N w l k a xp s vm n tp c)) tp
                 (snd (simulate N w l k a xp s vm n tp c)))).
Proof.
  rewrite !simulate_unfold. replace (S n) with (n + 1)%nat by lia.
  rewrite steps_add, steps_S. reflexivity.
Qed.

Lemma simulate_time (N : Z) (w l k a xp s vm : R) (n : nat) (tp : Tape) (c : nat) :
  time (fst (simulate N w l k a xp s vm n tp c)) = Z.of_nat n.
Proof.
  rewrite simulate_unfold, steps_time, init_unfold. simpl. lia.
Qed.

Lemma simulate_advanced (N : Z) (w l k a xp s vm : R) (n : nat) (tp : Tape) (c : nat) :
  Forall2 (advanced (Z.of_nat (S n)))
          (particles (fst (simulate N w l k a xp s vm n tp c)))
          (particles (fst (simulate N w l k a xp s vm (S n) tp c))).
Proof.
  rewrite simulate_S, step_unfold. cbn [fst snd].
  change (particles (with_particles ?m0 ?l0)) with l0.
  replace (Z.of_nat (S n))
    with (time (tick (fst (simulate N w l k a xp s vm n tp c))))
    by (simpl; rewrite simulate_time; lia).
  apply update_all_advanced.
Qed.

(** X15: A transformation time names the call in which the particle
    transformed: if after [n] calls of [step()] on a constructed model
    particle [i] has transformation time [t], then [t = j + 1] for a [j < n]
    such that particle [i] was unassembled after [j] calls and assembled
    after [j + 1]. *)
Theorem transformation_time_is_the_transforming_step :
  forall (N : Z) (w l k a xp s vm : R) (tp : Tape) (c n i : nat)
         (p : particle) (t : Z),
    nth_error (particles (fst (simulate N w l k a xp s vm n tp c))) i = Some p ->
    transformation_time p = Some t ->
    exists j : nat,
      (j < n)%nat /\ t = Z.of_nat (S j) /\
      (exists q : particle,
          nth_error (particles (fst (simulate N w l k a xp s vm j tp c))) i = Some q /\
          state q = unassembled) /\
      (exists q' : particle,
          nth_error (particles (fst (simulate N w l k a xp s vm (S j) tp c))) i = Some q' /\
          state q' = assembled).
Proof.
  intros N w l k a xp s vm tp c n. induction n as [|n IH]; intros i p t Hi Ht.
  - exfalso. rewrite simulate_unfold in Hi. simpl steps in Hi. unfold ret in Hi.
    cbn [fst] in Hi. rewrite init_particles in Hi.
    pose proof (make_particles_fresh (Z.to_nat N) w l vm tp c) as Hfresh.
    rewrite Forall_forall in Hfresh.
    destruct (Hfresh p (nth_error_In _ _ Hi)) as [_ Hnone]. congruence.
  - destruct (Forall2_nth_error_r _ _ _ (simulate_advanced N w l k a xp s vm n tp c) i p Hi)
      as (q & Hq & Hadv & Hmove).
    destruct (state q) eqn:Hs.
    + assert (Hcons : consistent q).
      { pose proof (steps_consistent n
                      (fst (SelfAssemblyModel.__init__ N w l k a xp s vm tp c)) tp
                      (snd (SelfAssemblyModel.__init__ N w l k a xp s vm tp c))
                      (init_consistent N w l k a xp s vm tp c)) as Hall.
        rewrite <- simulate_unfold in Hall. rewrite Forall_forall in Hall.
        apply Hall. exact (nth_error_In _ _ Hq). }
      assert (Hnone : transformation_time q = None).
      { unfold consistent in Hcons. rewrite Hs in Hcons.
        destruct (transformation_time q) as [t0|]; [|reflexivity].
        assert (Habs : unassembled = assembled) by (apply Hcons; discriminate).
        discriminate. }
      destruct (Hmove eq_refl) as [[_ Hsame] | [Hasm Hstamp]].
      * congruence.
      * exists n. split; [lia|]. split; [congruence|]. split.
        -- exists q. split; assumption.
        -- exists p. split; assumption.
    + rewrite (Hadv eq_refl) in Ht.
      destruct (IH i q t Hq Ht) as (j & Hj & Htj & Hbefore & Hafter).
      exists j. split; [lia|]. split; [assumption|]. split; assumption.
Qed.

Lemma transformation_time_witness :
  exists j : nat,
    (j < 1)%nat /\ 1%Z = Z.of_nat (S j) /\
    (exists q : particle,
        nth_error (particles (fst (simulate 1 1 10 0.1 0 3 1 0.05 j tape_zero 0%nat))) 0
        = Some q /\ state q = unassembled) /\
    (exists q' : particle,
        nth_error (particles (fst (simulate 1 1 10 0.1 0 3 1 0.05 (S j) tape_zero 0%nat))) 0
        = Some q' /\ state q' = assembled).
Proof.
  apply (transformation_time_is_the_transforming_step
           1 1 10 0.1 0 3 1 0.05 tape_zero 0%nat 1%nat 0%nat (assemble p_corner 1) 1%Z).
  - rewrite simulate_corner. reflexivity.
  - reflexivity.
Defined.

(** ** How many particles are assembled *)

Lemma count_state_total (ps : list particle) :
  (count_state unassembled ps + count_state assembled ps)%nat = List.length ps.
Proof.
  induction ps as [|p ps IH]; [reflexivity|].
  rewrite (count_state_cons unassembled), (count_state_cons assembled).
  simpl List.length. rewrite <- IH.
  unfold count_state, in_state. simpl. destruct (state p); simpl; lia.
Qed.

Lemma frozen_count (l1 l2 : list particle) :
  Forall2 frozen l1 l2 ->
  (count_state assembled l1 <= count_state assembled l2)%nat.
Proof.
  induction 1 as [|p q l1 l2 Hpq _ IH]; [reflexivity|].
  rewrite (count_state_cons _ p), (count_state_cons _ q).
  assert (Hhead : (count_state assembled [p] <= count_state assembled [q])%nat).
  { unfold count_state, in_state. simpl. destruct (state p) eqn:Hs; simpl; [lia|].
    rewrite (Hpq Hs), Hs. simpl. lia. }
  lia.
Qed.

(** X16: Transformation is one-way for the population as a whole: over any number
    of calls of [step()] the number of assembled particles does not fall and
    the number of unassembled particles does not rise, and the two always add
    up to the population. *)
Theorem assembled_count_never_decreases :
  forall (m : model) (tp : Tape) (c n : nat),
    (count_state assembled (particles m)
     <= count_state assembled (particles (fst (steps n m tp c))))%nat /\
    (count_state unassembled (particles (fst (steps n m tp c)))
     <= count_state unassembled (particles m))%nat /\
    (count_state unassembled (particles (fst (steps n m tp c))) +
     count_state assembled (particles (fst (steps n m tp c))))%nat
    = List.length (particles m).
Proof.
  intros m tp c n.
  pose proof (frozen_count _ _ (steps_frozen n m tp c)) as Hle.
  pose proof (count_state_total (particles m)) as H1.
  pose proof (count_state_total (particles (fst (steps n m tp c)))) as H2.
  pose proof (steps_length n m tp c) as Hlen.
  lia.
Qed.

(** ** The animation callback *)

Lemma column_stack_positions (ps : list particle) :
  visualize_simulation.column_stack (map x ps) (map y ps) = Some (map position ps).
Proof.
  unfold visualize_simulation.column_stack.
  rewrite !length_map, Nat.eqb_refl. f_equal.
  induction ps as [|p ps IH]; [reflexivity|]. simpl. rewrite IH. reflexivity.
Qed.

Lemma callback_unfold (m : model) (tp : Tape) (c : nat) :
  visualize_simulation.update m tp c =
  (match fst (fst (step m tp c)) with
   | Raised e => visualize_simulation.StepRaised e
   | Returned _ =>
       visualize_simulation.Drawn
         {| visualize_simulation.unassembled_scatter :=
              map position (filter (in_state unassembled)
                              (particles (snd (fst (step m tp c)))));
            visualize_simulation.assembled_scatter :=
              map position (filter (in_state assembled)
                              (particles (snd (fst (step m tp c))))) |}
   end,
   snd (fst (step m tp c)), snd (step m tp c)).
Proof.
  unfold visualize_simulation.update, bind, ret.
  destruct (step m tp c) as [[res m'] c']. cbn [fst snd].
  destruct res as [[]|e]; [|reflexivity].
  unfold visualize_simulation.xs_of, visualize_simulation.ys_of.
  rewrite !column_stack_positions. reflexivity.
Qed.

(** X17: One call of the animation callback is one call of [step()]; when the
    step returns, [column_stack] never fails, each row it builds is the
    position of one particle, and every particle is shown in exactly one of
    the two scatter plots, in population order; when the step raises, the
    exception is what the callback ends with. *)
Theorem callback_shows_every_particle_once :
  forall (m : model) (tp : Tape) (c : nat),
    snd (fst (visualize_simulation.update m tp c)) = snd (fst (step m tp c)) /\
    snd (visualize_simulation.update m tp c) = snd (step m tp c) /\
    match fst (fst (visualize_simulation.update m tp c)) with
    | visualize_simulation.Drawn o =>
        fst (fst (step m tp c)) = Returned tt /\
        visualize_simulation.unassembled_scatter o =
          map position (filter (in_state unassembled)
                          (particles (snd (fst (step m tp c))))) /\
        visualize_simulation.assembled_scatter o =
          map position (filter (in_state assembled)
                          (particles (snd (fst (step m tp c))))) /\
        (List.length (visualize_simulation.unassembled_scatter o) +
         List.length (visualize_simulation.assembled_scatter o))%nat
        = List.length (particles m)
    | visualize_simulation.StepRaised e => fst (fst (step m tp c)) = Raised e
    | visualize_simulation.ValueError => False
    end.
Proof.
  intros m tp c. rewrite callback_unfold. cbn [fst snd].
  split; [reflexivity|]. split; [reflexivity|].
  destruct (fst (fst (step m tp c))) as [[]|e] eqn:E; [|reflexivity].
  cbn [visualize_simulation.unassembled_scatter visualize_simulation.assembled_scatter].
  split; [reflexivity|]. split; [reflexivity|]. split; [reflexivity|].
  rewrite !length_map.
  pose proof (count_state_total (particles (snd (fst (step m tp c))))) as Htot.
  unfold count_state in Htot. rewrite Htot.
  destruct (step_cursor tp m c) as [_ Hlen]. exact Hlen.
Qed.

(** X18: With the axes set to [[0, length] x [0, width]] and a channel at least
    as large as the fixed bounds, every point the callback plots, in any
    frame of a run, lies inside the axes. *)
Theorem plotted_points_are_inside_the_axes :
  forall (N : Z) (w l k a xp s vm : R) (n : nat) (tp : Tape) (c : nat),
    unit_interval tp -> 10 <= l -> 1 <= w ->
    match fst (fst (visualize_simulation.update
                      (fst (simulate N w l k a xp s vm n tp c)) tp
                      (snd (simulate N w l k a xp s vm n tp c)))) with
    | visualize_simulation.Drawn o =>
        Forall (fun xy => 0 <= fst xy <= l /\ 0 <= snd xy <= w)
               (visualize_simulation.unassembled_scatter o ++
                visualize_simulation.assembled_scatter o)
    | _ => True
    end.
Proof.
  intros N w l k a xp s vm n tp c Htp Hl Hw.
  pose proof (simulate_in_rectangle N w l k a xp s vm (n + 1) tp c Htp Hl Hw) as Hbox.
  rewrite simulate_unfold, steps_add, steps_S in Hbox. simpl steps in Hbox.
  unfold ret in Hbox. cbn [fst] in Hbox. rewrite <- simulate_unfold in Hbox.
  rewrite callback_unfold. cbn [fst snd].
  destruct (fst (fst (step _ tp _))) as [[]|e]; [|exact I].
  cbn [visualize_simulation.unassembled_scatter visualize_simulation.assembled_scatter].
  rewrite Forall_forall in *. intros xy Hin.
  apply in_app_or in Hin.
  assert (Hp : exists p, position p = xy /\
                 In p (particles (snd (fst (step (fst (simulate N w l k a xp s vm n tp c)) tp
                                               (snd (simulate N w l k a xp s vm n tp c))))))).
  { destruct Hin as [Hin | Hin]; apply in_map_iff in Hin;
      destruct Hin as (p & Hpos & Hf); apply filter_In in Hf;
      exists p; tauto. }
  destruct Hp as (p & <- & Hp). simpl. apply Hbox. exact Hp.
Qed.

Lemma plotted_points_witness :
  match fst (fst (visualize_simulation.update
                    (fst (simulate 100 1 10 0.1 0 3 1 0.05 9 tape_half 0%nat)) tape_half
                    (snd (simulate 100 1 10 0.1 0 3 1 0.05 9 tape_half 0%nat)))) with
  | visualize_simulation.Drawn o =>
      Forall (fun xy => 0 <= fst xy <= 10 /\ 0 <= snd xy <= 1)
             (visualize_simulation.unassembled_scatter o ++
              visualize_simulation.assembled_scatter o)
  | _ => True
  end.
Proof.
  apply plotted_points_are_inside_the_axes.
  - exact tape_half_unit.
  - lra.
  - lra.
Defined.
